(** * Banco.py: a shallow embedding of the bank ledger and its properties

    The Python module [Banco.py] defines clients, accounts ([Conta] with
    the subclasses [Corrente] and [Poupanca]), operation records and a
    [Banco] that orchestrates deposits, withdrawals and transfers.

    Python objects are mutable and shared by reference: the bank's
    registry and a client's list point to the same account objects.  The
    embedding therefore keeps every object in a store ([Mundo]) and passes
    references around.  Methods are computations in a state-and-exception
    monad [M]; an exception leaves the store as it was at the moment of
    the [raise], exactly as in Python (nothing is rolled back).

    Conventions.
    - Amounts ([saldo], [valor], ...) are Python floats.  The
      specification treats them as exact signed decimal amounts, and so
      does the model: they are rationals [Q], and rounding is outside the
      model.
    - [datetime.date.today()] and [datetime.datetime.now()] read the
      clock; the values read are explicit arguments ([hoje], [agora]) of
      the methods that read them, in the order the code reads them.
    - Every attribute assignment and every [list.append] performed on an
      account is also recorded, in program order, in the ghost field
      [rastro] of the store, so that claims about the order of effects
      inside one call can be stated. *)

From Stdlib Require Import ZArith QArith String List Lqa Lia Bool.
From stdpp Require Import base option list gmap.

Set Default Proof Using "Type".
Local Open Scope Z_scope.
Local Open Scope Q_scope.
Local Open Scope string_scope.

(** ** Data model *)

(** Object references (addresses in the store). *)
Abbreviation ref := nat (only parsing).

(** [datetime.date] as its proleptic ordinal, [datetime.datetime] as a
    timestamp. *)
Abbreviation date := Z (only parsing).
Abbreviation datetime := Z (only parsing).

(** [class TipoOperacao(Enum)]. *)
Inductive TipoOperacao : Type :=
  | DEPOSITO
  | SAQUE
  | TRANSFERENCIA_DEBITO
  | TRANSFERENCIA_CREDITO.

(** Python does not enforce the annotation [tipo: TipoOperacao]: the
    attribute holds whatever value the caller passes.  The source passes
    either a member of the enum or a plain [str]. *)
Inductive ValorTipo : Type :=
  | TipoEnum (t : TipoOperacao)
  | TipoStr (s : string).

(** [isinstance(x, TipoOperacao)]. *)
Definition isinstance_TipoOperacao (x : ValorTipo) : bool :=
  match x with
  | TipoEnum _ => true
  | TipoStr _ => false
  end.

(** [@dataclass class Operacao]. *)
Record Operacao : Type := mkOperacao {
  tipo : ValorTipo;
  valor : Q;
  dia : datetime
}.

(** [@dataclass class Endereco]. *)
Record Endereco : Type := mkEndereco {
  rua : string;
  endereco_numero : Z;
  bairro : string;
  cidade : string;
  estado : string;
  cep : string
}.

(** [@dataclass class Cliente]; [contas] holds references. *)
Record Cliente : Type := mkCliente {
  nome : string;
  cpf : string;
  enderecos : list Endereco;
  cliente_contas : list ref
}.

(** The run-time class of an account object, with the attribute each
    subclass adds.  [limite_cheque_especial] and [taxa_rendimento] are
    class attributes in the source ([5000.0] and [0.001]); an instance
    reads the class value until its first assignment, so the model keeps
    them per instance, initialised by the constructors. *)
Inductive Classe : Type :=
  | ClasseConta
  | ClasseCorrente (limite_cheque_especial : Q)
  | ClassePoupanca (taxa_rendimento : Q).

(** [@dataclass class Conta] and its subclasses. *)
Record Conta : Type := mkConta {
  titular : ref;
  saldo : Q;
  numero : string;
  saques_diarios : Z;
  limite_saques_diarios : Z;
  operacoes : list Operacao;
  ultima_atualizacao : date;
  classe : Classe
}.

(** [@dataclass class Banco]: two registries of references. *)
Record Banco : Type := mkBanco {
  clientes : list ref;
  contas : list ref
}.

(** Exceptions: the classes the module defines, and the two built-in
    ones its code can raise.  [ReferenciaInvalida] does not exist in
    Python: it is what the model answers when a reference names no object
    of the store. *)
Inductive ClasseExcecao : Type :=
  | BankError
  | NonClientError
  | NonCountError
  | OperationError
  | AttributeError
  | RecursionError
  | ReferenciaInvalida.

Record Excecao : Type := mkExcecao {
  exc_classe : ClasseExcecao;
  exc_mensagem : string
}.

(** The class hierarchy: [NonCountError(NonClientError)],
    [NonClientError(BankError)]; [OperationError(Exception)] is apart. *)
Definition subclasse (c d : ClasseExcecao) : bool :=
  match c, d with
  | BankError, BankError => true
  | NonClientError, (NonClientError | BankError) => true
  | NonCountError, (NonCountError | NonClientError | BankError) => true
  | OperationError, OperationError => true
  | AttributeError, AttributeError => true
  | RecursionError, RecursionError => true
  | ReferenciaInvalida, ReferenciaInvalida => true
  | _, _ => false
  end.

(** Ghost record of one write to an account object. *)
Inductive Efeito : Type :=
  | AtribuiSaldo (r : ref) (q : Q)
  | AtribuiLimiteChequeEspecial (r : ref) (q : Q)
  | AtribuiSaquesDiarios (r : ref) (n : Z)
  | AtribuiUltimaAtualizacao (r : ref) (d : date)
  | AnexaOperacao (r : ref) (op : Operacao).

(** The store. [limite_recursao] is the interpreter's recursion limit
    ([sys.getrecursionlimit()]), which bounds the depth of the generated
    [__eq__] methods on cyclic object graphs. *)
Record Mundo : Type := mkMundo {
  objs_clientes : gmap nat Cliente;
  objs_contas : gmap nat Conta;
  proximo : ref;
  limite_recursao : nat;
  rastro : list Efeito
}.

(** ** The monad of methods *)

Inductive Resultado (A : Type) : Type :=
  | Retorna (a : A)
  | Levanta (e : Excecao).
Arguments Retorna {A} a.
Arguments Levanta {A} e.

Definition M (A : Type) : Type := Mundo -> Mundo * Resultado A.

Definition ret {A} (a : A) : M A := fun m => (m, Retorna a).

Definition raise {A} (e : Excecao) : M A := fun m => (m, Levanta e).

Definition bind {A B} (c : M A) (k : A -> M B) : M B :=
  fun m =>
    match c m with
    | (m', Retorna a) => k a m'
    | (m', Levanta e) => (m', Levanta e)
    end.

Notation "x <- c ;; k" := (bind c (fun x => k))
  (at level 100, c at next level, right associativity).
Notation "c ;;; k" := (bind c (fun _ => k))
  (at level 100, right associativity).

(** ** Record updates *)

Definition com_saldo (c : Conta) (q : Q) : Conta :=
  mkConta (titular c) q (numero c) (saques_diarios c)
          (limite_saques_diarios c) (operacoes c) (ultima_atualizacao c)
          (classe c).

Definition com_saques_diarios (c : Conta) (n : Z) : Conta :=
  mkConta (titular c) (saldo c) (numero c) n
          (limite_saques_diarios c) (operacoes c) (ultima_atualizacao c)
          (classe c).

Definition com_operacoes (c : Conta) (l : list Operacao) : Conta :=
  mkConta (titular c) (saldo c) (numero c) (saques_diarios c)
          (limite_saques_diarios c) l (ultima_atualizacao c)
          (classe c).

Definition com_ultima_atualizacao (c : Conta) (d : date) : Conta :=
  mkConta (titular c) (saldo c) (numero c) (saques_diarios c)
          (limite_saques_diarios c) (operacoes c) d
          (classe c).

Definition com_classe (c : Conta) (k : Classe) : Conta :=
  mkConta (titular c) (saldo c) (numero c) (saques_diarios c)
          (limite_saques_diarios c) (operacoes c) (ultima_atualizacao c)
          k.

(** ** Access to the store *)

Definition erro_referencia : Excecao :=
  mkExcecao ReferenciaInvalida "no object at this reference".

(** The store after one write to the account at [r]. *)
Definition grava (r : ref) (c : Conta) (e : Efeito) (m : Mundo) : Mundo :=
  mkMundo (objs_clientes m) (<[r := c]> (objs_contas m)) (proximo m)
          (limite_recursao m) (rastro m ++ [e]).

Definition ler_conta (r : ref) : M Conta :=
  fun m =>
    match objs_contas m !! r with
    | Some c => (m, Retorna c)
    | None => (m, Levanta erro_referencia)
    end.

Definition ler_cliente (r : ref) : M Cliente :=
  fun m =>
    match objs_clientes m !! r with
    | Some c => (m, Retorna c)
    | None => (m, Levanta erro_referencia)
    end.

Definition escrever_conta (r : ref) (f : Conta -> Conta) (e : Efeito) : M unit :=
  fun m =>
    match objs_contas m !! r with
    | Some c => (grava r (f c) e m, Retorna tt)
    | None => (m, Levanta erro_referencia)
    end.

(** [self.saldo = q] *)
Definition set_saldo (self : ref) (q : Q) : M unit :=
  escrever_conta self (fun c => com_saldo c q) (AtribuiSaldo self q).

(** [self.saques_diarios = n] *)
Definition set_saques_diarios (self : ref) (n : Z) : M unit :=
  escrever_conta self (fun c => com_saques_diarios c n)
                 (AtribuiSaquesDiarios self n).

(** [self.ultima_atualizacao = d] *)
Definition set_ultima_atualizacao (self : ref) (d : date) : M unit :=
  escrever_conta self (fun c => com_ultima_atualizacao c d)
                 (AtribuiUltimaAtualizacao self d).

(** [self.operacoes.append(op)] *)
Definition operacoes_append (self : ref) (op : Operacao) : M unit :=
  escrever_conta self (fun c => com_operacoes c (operacoes c ++ [op]))
                 (AnexaOperacao self op).

Definition erro_atributo (tipo_obj atributo : string) : Excecao :=
  mkExcecao AttributeError
            ("'" ++ tipo_obj ++ "' object has no attribute '" ++ atributo ++ "'").

Definition nome_classe (k : Classe) : string :=
  match k with
  | ClasseConta => "Conta"
  | ClasseCorrente _ => "Corrente"
  | ClassePoupanca _ => "Poupanca"
  end.

(** [self.limite_cheque_especial]: only [Corrente] has the attribute. *)
Definition get_limite_cheque_especial (self : ref) : M Q :=
  c <- ler_conta self ;;
  match classe c with
  | ClasseCorrente lim => ret lim
  | k => raise (erro_atributo (nome_classe k) "limite_cheque_especial")
  end.

(** [self.limite_cheque_especial = q], on a [Corrente]. *)
Definition set_limite_cheque_especial (self : ref) (q : Q) : M unit :=
  escrever_conta self
    (fun c => match classe c with
              | ClasseCorrente _ => com_classe c (ClasseCorrente q)
              | _ => c
              end)
    (AtribuiLimiteChequeEspecial self q).

Definition isinstance_Corrente (c : Conta) : bool :=
  match classe c with ClasseCorrente _ => true | _ => false end.

Definition isinstance_Poupanca (c : Conta) : bool :=
  match classe c with ClassePoupanca _ => true | _ => false end.

(** Python's [x > y] on amounts. *)
Definition Qgtb (x y : Q) : bool := negb (Qle_bool x y).

(** ** class Conta *)

(** [Corrente.debitar_com_cheque_especial] *)
Definition debitar_com_cheque_especial (self : ref) (valor : Q) : M bool :=
  lim <- get_limite_cheque_especial self ;;
  c <- ler_conta self ;;
  if Qgtb valor (lim + saldo c) then ret false
  else
    set_limite_cheque_especial self (lim - (valor - saldo c)) ;;;
    set_saldo self 0 ;;;
    ret true.

(** [Conta.debitar] *)
Definition debitar (self : ref) (valor : Q) : M bool :=
  c <- ler_conta self ;;
  if Qgtb valor (saldo c) && isinstance_Corrente c then
    debitar_com_cheque_especial self valor
  else if Qgtb valor (saldo c) then ret false
  else
    set_saldo self (saldo c - valor) ;;;
    ret true.

(** [Conta.creditar] *)
Definition creditar (self : ref) (valor : Q) : M unit :=
  c <- ler_conta self ;;
  set_saldo self (saldo c + valor).

(** [Conta.historico] *)
Definition historico (self : ref) : M (list Operacao) :=
  c <- ler_conta self ;;
  ret (operacoes c).

(** [Conta.verificar_reset]; [hoje] is the value of
    [datetime.date.today()]. *)
Definition verificar_reset (self : ref) (hoje : date) : M unit :=
  c <- ler_conta self ;;
  if negb (Z.eqb hoje (ultima_atualizacao c)) then
    set_saques_diarios self 0%Z ;;;
    set_ultima_atualizacao self hoje
  else ret tt.

(** [Conta.limite_saque] *)
Definition limite_saque (self : ref) (hoje : date) : M bool :=
  verificar_reset self hoje ;;;
  c <- ler_conta self ;;
  if isinstance_Poupanca c then
    ret (Z.ltb (saques_diarios c) (limite_saques_diarios c))
  else ret true.

(** [Poupanca.aplicar_rendimentos]: the method exists on [Poupanca]
    only. *)
Definition aplicar_rendimentos (self : ref) : M unit :=
  c <- ler_conta self ;;
  match classe c with
  | ClassePoupanca taxa => set_saldo self (saldo c * (1 + taxa))
  | k => raise (erro_atributo (nome_classe k) "aplicar_rendimentos")
  end.

(** ** Constructors *)

(** Allocation of a fresh account object. *)
Definition aloca_conta (c : Conta) : M ref :=
  fun m =>
    (mkMundo (objs_clientes m) (<[proximo m := c]> (objs_contas m))
             (S (proximo m)) (limite_recursao m) (rastro m),
     Retorna (proximo m)).

(** The dataclass [__init__] of [Conta] with its defaults;
    [hoje] is the value the default factory [datetime.date.today]
    returns. *)
Definition Conta_init (titular : ref) (saldo : Q) (numero : string)
    (hoje : date) (k : Classe) : Conta :=
  mkConta titular saldo numero 0%Z 20%Z [] hoje k.

(** [Corrente(titular, saldo, numero)] *)
Definition novo_Corrente (titular : ref) (saldo : Q) (numero : string)
    (hoje : date) : M ref :=
  aloca_conta (Conta_init titular saldo numero hoje (ClasseCorrente 5000)).

(** [Poupanca(titular, saldo, numero)] *)
Definition novo_Poupanca (titular : ref) (saldo : Q) (numero : string)
    (hoje : date) : M ref :=
  aloca_conta (Conta_init titular saldo numero hoje (ClassePoupanca (1 # 1000))).

(** [Cliente(nome, cpf)]: both lists start empty. *)
Definition novo_Cliente (nome cpf : string) : M ref :=
  fun m =>
    (mkMundo (<[proximo m := mkCliente nome cpf [] []]> (objs_clientes m))
             (objs_contas m) (S (proximo m)) (limite_recursao m) (rastro m),
     Retorna (proximo m)).

(** ** Equality of objects

    [x in lista] compares with [==], that is: identity first, then
    [__eq__].  The [__eq__] that [@dataclass] generates answers
    [NotImplemented] unless both objects have the same class, and
    otherwise compares the fields in declaration order, stopping at the
    first difference; tuples and lists compare their elements with the
    identity shortcut.  Accounts and clients point to each other, so the
    comparison of two distinct but equal-looking objects may recurse
    until the interpreter raises [RecursionError]: the depth is bounded
    by [limite_recursao]. *)

Definition erro_recursao : Excecao :=
  mkExcecao RecursionError "maximum recursion depth exceeded in comparison".

Definition TipoOperacao_eqb (a b : TipoOperacao) : bool :=
  match a, b with
  | DEPOSITO, DEPOSITO
  | SAQUE, SAQUE
  | TRANSFERENCIA_DEBITO, TRANSFERENCIA_DEBITO
  | TRANSFERENCIA_CREDITO, TRANSFERENCIA_CREDITO => true
  | _, _ => false
  end.

Definition ValorTipo_eqb (a b : ValorTipo) : bool :=
  match a, b with
  | TipoEnum x, TipoEnum y => TipoOperacao_eqb x y
  | TipoStr x, TipoStr y => String.eqb x y
  | _, _ => false
  end.

Definition Operacao_eqb (a b : Operacao) : bool :=
  ValorTipo_eqb (tipo a) (tipo b) && Qeq_bool (valor a) (valor b)
  && Z.eqb (dia a) (dia b).

Definition Endereco_eqb (a b : Endereco) : bool :=
  String.eqb (rua a) (rua b) && Z.eqb (endereco_numero a) (endereco_numero b)
  && String.eqb (bairro a) (bairro b) && String.eqb (cidade a) (cidade b)
  && String.eqb (estado a) (estado b) && String.eqb (cep a) (cep b).

(** [list.__eq__] on lists of values. *)
Fixpoint lista_eqb {A} (eqb : A -> A -> bool) (xs ys : list A) : bool :=
  match xs, ys with
  | [], [] => true
  | x :: xs', y :: ys' => eqb x y && lista_eqb eqb xs' ys'
  | _, _ => false
  end.

(** [list.__eq__] on lists of references, whose elements are compared
    by a test that may raise: lengths first, then the elements in order
    until one pair differs. *)
Fixpoint pares_eq (eq : ref -> ref -> Resultado bool) (xs ys : list ref)
    : Resultado bool :=
  match xs, ys with
  | x :: xs', y :: ys' =>
      match eq x y with
      | Retorna true => pares_eq eq xs' ys'
      | r => r
      end
  | _, _ => Retorna true
  end.

Definition lista_refs_eq (eq : ref -> ref -> Resultado bool) (xs ys : list ref)
    : Resultado bool :=
  if negb (Nat.eqb (length xs) (length ys)) then Retorna false
  else pares_eq eq xs ys.

(** [other.__class__ is self.__class__] *)
Definition mesma_classe (a b : Classe) : bool :=
  match a, b with
  | ClasseConta, ClasseConta
  | ClasseCorrente _, ClasseCorrente _
  | ClassePoupanca _, ClassePoupanca _ => true
  | _, _ => false
  end.

(** The fields of [Conta] after [titular].  The subclass attributes are
    not dataclass fields ([Corrente] and [Poupanca] are not decorated),
    so [__eq__] does not look at them. *)
Definition campos_conta_eqb (a b : Conta) : bool :=
  Qeq_bool (saldo a) (saldo b) && String.eqb (numero a) (numero b)
  && Z.eqb (saques_diarios a) (saques_diarios b)
  && Z.eqb (limite_saques_diarios a) (limite_saques_diarios b)
  && lista_eqb Operacao_eqb (operacoes a) (operacoes b)
  && Z.eqb (ultima_atualizacao a) (ultima_atualizacao b).

(** [Conta.__eq__] and [Cliente.__eq__]; [n] frames are left. *)
Fixpoint Conta_eq (n : nat) (m : Mundo) (a b : ref) {struct n}
    : Resultado bool :=
  match n with
  | O => Levanta erro_recursao
  | S n' =>
      match objs_contas m !! a, objs_contas m !! b with
      | Some ca, Some cb =>
          if negb (mesma_classe (classe ca) (classe cb)) then Retorna false
          else
            match (if Nat.eqb (titular ca) (titular cb) then Retorna true
                   else Cliente_eq n' m (titular ca) (titular cb)) with
            | Retorna true => Retorna (campos_conta_eqb ca cb)
            | r => r
            end
      | _, _ => Levanta erro_referencia
      end
  end
with Cliente_eq (n : nat) (m : Mundo) (x y : ref) {struct n}
    : Resultado bool :=
  match n with
  | O => Levanta erro_recursao
  | S n' =>
      match objs_clientes m !! x, objs_clientes m !! y with
      | Some cx, Some cy =>
          if String.eqb (nome cx) (nome cy) && String.eqb (cpf cx) (cpf cy)
             && lista_eqb Endereco_eqb (enderecos cx) (enderecos cy)
          then
            lista_refs_eq
              (fun a b => if Nat.eqb a b then Retorna true
                          else Conta_eq n' m a b)
              (cliente_contas cx) (cliente_contas cy)
          else Retorna false
      | _, _ => Levanta erro_referencia
      end
  end.

(** [list.__contains__]: the first item that is, or equals, [el]. *)
Fixpoint list_contains (eq : ref -> ref -> Resultado bool) (l : list ref)
    (el : ref) : Resultado bool :=
  match l with
  | [] => Retorna false
  | item :: l' =>
      if Nat.eqb item el then Retorna true
      else
        match eq item el with
        | Retorna false => list_contains eq l' el
        | r => r
        end
  end.

(** [conta in lista] *)
Definition conta_in (conta : ref) (lista : list ref) : M bool :=
  fun m => (m, list_contains (Conta_eq (limite_recursao m) m) lista conta).

(** [cliente in lista] *)
Definition cliente_in (cliente : ref) (lista : list ref) : M bool :=
  fun m => (m, list_contains (Cliente_eq (limite_recursao m) m) lista cliente).

(** ** Exception constructors *)

(** A constructor argument, as Python sees it at run time. *)
Inductive Objeto : Type :=
  | ObjStr (s : string)
  | ObjConta (r : ref).

(** [obj.numero] *)
Definition attr_numero (obj : Objeto) : M string :=
  match obj with
  | ObjStr _ => raise (erro_atributo "str" "numero")
  | ObjConta r => c <- ler_conta r ;; ret (numero c)
  end.

(** [NonClientError(member_name)] *)
Definition NonClientError_new (member_name : string) : Excecao :=
  mkExcecao NonClientError (member_name ++ " nao e cliente").

(** [NonCountError(conta)]: the message is built from [conta.numero]. *)
Definition NonCountError_new (conta : Objeto) : M Excecao :=
  n <- attr_numero conta ;;
  ret (mkExcecao NonCountError ("A conta " ++ n ++ " nao existe")).

(** [OperationError(message)] *)
Definition OperationError_new (message : string) : Excecao :=
  mkExcecao OperationError message.

Definition msg_limite : string := "Limite de saques diários atingido".
Definition msg_saldo : string :=
  "Saldo insuficiente ou outra falha na operação".

(** ** class Banco *)

(** [Banco.criar_cliente] *)
Definition criar_cliente (self : Banco) (novo_cliente : ref) : M Banco :=
  ret (mkBanco (clientes self ++ [novo_cliente]) (contas self)).

(** [Banco.nova_conta] *)
Definition nova_conta (self : Banco) (cliente conta : ref) : M Banco :=
  presente <- cliente_in cliente (clientes self) ;;
  if negb presente then
    c <- ler_cliente cliente ;;
    raise (NonClientError_new (nome c))
  else
    c <- ler_cliente cliente ;;
    (fun m =>
       (mkMundo (<[cliente := mkCliente (nome c) (cpf c) (enderecos c)
                                        (cliente_contas c ++ [conta])]>
                   (objs_clientes m))
                (objs_contas m) (proximo m) (limite_recursao m) (rastro m),
        Retorna (mkBanco (clientes self) (contas self ++ [conta])))).

(** [raise NonCountError(conta.numero)]: the constructor receives the
    account's number, a [str]. *)
Definition raise_NonCountError_numero {A} (conta : ref) : M A :=
  c <- ler_conta conta ;;
  e <- NonCountError_new (ObjStr (numero c)) ;;
  raise e.

(** [Banco.transferencia]; [agora1] and [agora2] are the two readings of
    [datetime.datetime.now()], one per [Operacao] built. *)
Definition transferencia (self : Banco) (conta1 conta2 : ref) (valor : Q)
    (agora1 agora2 : datetime) : M unit :=
  p1 <- conta_in conta1 (contas self) ;;
  if negb p1 then raise_NonCountError_numero conta1
  else
    p2 <- conta_in conta2 (contas self) ;;
    if negb p2 then raise_NonCountError_numero conta2
    else
      ok <- debitar conta1 valor ;;
      if ok then
        creditar conta2 valor ;;;
        operacoes_append conta1
          (mkOperacao (TipoStr "Transferencia - Debito") valor agora1) ;;;
        operacoes_append conta2
          (mkOperacao (TipoStr "Transferencia - Credito") valor agora2)
      else raise (OperationError_new msg_saldo).

(** [Banco.deposito] *)
Definition deposito (self : Banco) (conta : ref) (valor : Q)
    (agora : datetime) : M unit :=
  p <- conta_in conta (contas self) ;;
  if negb p then raise_NonCountError_numero conta
  else
    operacoes_append conta (mkOperacao (TipoStr "Deposito") valor agora) ;;;
    creditar conta valor.

(** [Banco.saque] *)
Definition saque (self : Banco) (conta : ref) (valor : Q)
    (hoje : date) (agora : datetime) : M unit :=
  p <- conta_in conta (contas self) ;;
  if negb p then raise_NonCountError_numero conta
  else
    permitido <- limite_saque conta hoje ;;
    if negb permitido then raise (OperationError_new msg_limite)
    else
      ok <- debitar conta valor ;;
      if ok then
        operacoes_append conta (mkOperacao (TipoEnum SAQUE) valor agora) ;;;
        c <- ler_conta conta ;;
        set_saques_diarios conta (saques_diarios c + 1)%Z
      else raise (OperationError_new msg_saldo).

(** ** Derived notions used in the statements *)

(** The account a [Corrente] becomes after a debit through the
    overdraft. *)
Definition apos_cheque_especial (c : Conta) (o v : Q) : Conta :=
  com_saldo (com_classe c (ClasseCorrente (o - (v - saldo c)))) 0.

(** The bank's own test [conta in self.contas] answers [True]. *)
Definition registrada (m : Mundo) (b : Banco) (r : ref) : Prop :=
  conta_in r (contas b) m = (m, Retorna true).

(** The bank's own test answers [False]. *)
Definition nao_registrada (m : Mundo) (b : Banco) (r : ref) : Prop :=
  conta_in r (contas b) m = (m, Retorna false).

(** What the constructors establish and every method keeps: the daily
    limit is positive and the overdraft limit of a [Corrente] is not
    negative. *)
Definition Conta_valida (c : Conta) : Prop :=
  (0 < limite_saques_diarios c)%Z /\
  match classe c with
  | ClasseCorrente o => 0 <= o
  | _ => True
  end.

Definition Mundo_valido (m : Mundo) : Prop :=
  forall r c, objs_contas m !! r = Some c -> Conta_valida c.

(** A computation keeps a property of the store, whatever it answers. *)
Definition preserva {A} (P : Mundo -> Prop) (c : M A) : Prop :=
  forall m, P m -> P (fst (c m)).

(** The stores a program can reach through the module's interface,
    starting with no object at all. *)
Inductive alcancavel : Mundo -> Prop :=
  | alc_inicio (n : nat) :
      alcancavel (mkMundo ∅ ∅ 0 n [])
  | alc_novo_Cliente m nome cpf :
      alcancavel m -> alcancavel (fst (novo_Cliente nome cpf m))
  | alc_novo_Corrente m t s n hoje :
      alcancavel m -> alcancavel (fst (novo_Corrente t s n hoje m))
  | alc_novo_Poupanca m t s n hoje :
      alcancavel m -> alcancavel (fst (novo_Poupanca t s n hoje m))
  | alc_nova_conta m b cli conta :
      alcancavel m -> alcancavel (fst (nova_conta b cli conta m))
  | alc_creditar m r v :
      alcancavel m -> alcancavel (fst (creditar r v m))
  | alc_debitar m r v :
      alcancavel m -> alcancavel (fst (debitar r v m))
  | alc_aplicar_rendimentos m r :
      alcancavel m -> alcancavel (fst (aplicar_rendimentos r m))
  | alc_limite_saque m r hoje :
      alcancavel m -> alcancavel (fst (limite_saque r hoje m))
  | alc_deposito m b r v agora :
      alcancavel m -> alcancavel (fst (deposito b r v agora m))
  | alc_saque m b r v hoje agora :
      alcancavel m -> alcancavel (fst (saque b r v hoje agora m))
  | alc_transferencia m b r1 r2 v agora1 agora2 :
      alcancavel m ->
      alcancavel (fst (transferencia b r1 r2 v agora1 agora2 m)).

(** The account after [verificar_reset] on day [hoje]. *)
Definition apos_reset (c : Conta) (hoje : date) : Conta :=
  if negb (Z.eqb hoje (ultima_atualizacao c)) then
    com_ultima_atualizacao (com_saques_diarios c 0%Z) hoje
  else c.

(** The store after [verificar_reset] on the account [c] at [r]. *)
Definition mundo_apos_reset (r : ref) (c : Conta) (hoje : date) (m : Mundo)
    : Mundo :=
  if negb (Z.eqb hoje (ultima_atualizacao c)) then
    grava r (com_ultima_atualizacao (com_saques_diarios c 0%Z) hoje)
      (AtribuiUltimaAtualizacao r hoje)
      (grava r (com_saques_diarios c 0%Z) (AtribuiSaquesDiarios r 0%Z) m)
  else m.

(** *** Sequences of calls on one account *)








(** *** A concrete bank, built through the module's own interface *)

Definition mundo_vazio : Mundo := mkMundo ∅ ∅ 0 1000 [].

Fixpoint repetir (n : nat) (c : M unit) : M unit :=
  match n with
  | O => ret tt
  | S n' => c ;;; repetir n' c
  end.

(** One client with a registered [Corrente] (balance 100) and a
    registered [Poupanca] (balance 50), and a third account that is
    created but never registered; everything happens on day 100. *)
Definition abrir_banco : M (Banco * ref * ref * ref) :=
  cli <- novo_Cliente "Ana" "123" ;;
  b <- criar_cliente (mkBanco [] []) cli ;;
  cc <- novo_Corrente cli 100 "001" 100%Z ;;
  cp <- novo_Poupanca cli 50 "002" 100%Z ;;
  avulsa <- novo_Poupanca cli 30 "003" 100%Z ;;
  b <- nova_conta b cli cc ;;
  b <- nova_conta b cli cp ;;
  ret (b, cc, cp, avulsa).

Definition mundo_exemplo : Mundo :=
  Eval vm_compute in fst (abrir_banco mundo_vazio).

Definition banco_exemplo : Banco := mkBanco [0%nat] [1%nat; 2%nat].

Definition corrente_exemplo : Conta :=
  mkConta 0 100 "001" 0 20 [] 100 (ClasseCorrente 5000).

Definition poupanca_exemplo : Conta :=
  mkConta 0 50 "002" 0 20 [] 100 (ClassePoupanca 0.001).

(** The same bank after twenty withdrawals of 1 from the [Poupanca], all
    on day 100. *)
Definition mundo_limite : Mundo :=
  Eval vm_compute in
    fst (repetir 20 (saque banco_exemplo 2 1 100%Z 7%Z) mundo_exemplo).

Definition poupanca_no_limite : Conta :=
  Eval vm_compute in
    match objs_contas mundo_limite !! 2%nat with
    | Some c => c
    | None => poupanca_exemplo
    end.

(** ** class Cliente *)

Definition com_cliente_contas (c : Cliente) (l : list ref) : Cliente :=
  mkCliente (nome c) (cpf c) (enderecos c) l.

(** A write to the client object at [r]. *)
Definition escrever_cliente (r : ref) (f : Cliente -> Cliente) : M unit :=
  fun m =>
    match objs_clientes m !! r with
    | Some c =>
        (mkMundo (<[r := f c]> (objs_clientes m)) (objs_contas m) (proximo m)
                 (limite_recursao m) (rastro m),
         Retorna tt)
    | None => (m, Levanta erro_referencia)
    end.

(** [Cliente.adicionar_conta] *)
Definition adicionar_conta (self conta : ref) : M unit :=
  escrever_cliente self
    (fun c => com_cliente_contas c (cliente_contas c ++ [conta])).

(** [Cliente.listar_contas] *)
Definition listar_contas (self : ref) : M (list ref) :=
  c <- ler_cliente self ;;
  ret (cliente_contas c).

(** The loop of [remover_conta]: the first account of the list whose
    [numero] equals [numero_conta], if any. *)
Fixpoint procurar_numero (m : Mundo) (l : list ref) (numero_conta : string)
    : Resultado (option ref) :=
  match l with
  | [] => Retorna None
  | conta :: l' =>
      match objs_contas m !! conta with
      | Some c =>
          if String.eqb (numero c) numero_conta then Retorna (Some conta)
          else procurar_numero m l' numero_conta
      | None => Levanta erro_referencia
      end
  end.

(** [list.remove(x)]: drops the first item that is, or equals, [x].
    [None] stands for the [ValueError] Python raises when there is no
    such item. *)
Fixpoint list_remove (eq : ref -> ref -> Resultado bool) (l : list ref)
    (x : ref) : Resultado (option (list ref)) :=
  match l with
  | [] => Retorna None
  | item :: l' =>
      if Nat.eqb item x then Retorna (Some l')
      else
        match eq item x with
        | Retorna true => Retorna (Some l')
        | Retorna false =>
            match list_remove eq l' x with
            | Retorna (Some l'') => Retorna (Some (item :: l''))
            | r => r
            end
        | Levanta e => Levanta e
        end
  end.

(** [Cliente.remover_conta].  The answer [None] stands for a
    [ValueError] escaping from [self.contas.remove(conta)]; [Some b] is
    the boolean the method returns. *)
Definition remover_conta (self : ref) (numero_conta : string)
    : M (option bool) :=
  cli <- ler_cliente self ;;
  achada <- (fun m => (m, procurar_numero m (cliente_contas cli) numero_conta)) ;;
  match achada with
  | None => ret (Some false)
  | Some conta =>
      restante <- (fun m => (m, list_remove (Conta_eq (limite_recursao m) m)
                                   (cliente_contas cli) conta)) ;;
      match restante with
      | None => ret None
      | Some l' =>
          escrever_cliente self (fun c => com_cliente_contas c l') ;;;
          ret (Some true)
      end
  end.

(** ** Further notions used in the statements *)


(** Every account of [m] is still in [m'], related by [R]. *)
Definition relaciona (R : Conta -> Conta -> Prop) (m m' : Mundo) : Prop :=
  forall r c, objs_contas m !! r = Some c ->
    exists c', objs_contas m' !! r = Some c' /\ R c c'.

(** A computation relates the store it starts from to the store it
    leaves, whatever it answers. *)
Definition mantem {A} (R : Conta -> Conta -> Prop) (c : M A) : Prop :=
  forall m, relaciona R m (fst (c m)).

(** How an account may change over time: identity data, daily limit and
    class are fixed, the interest rate is fixed, the overdraft limit
    never grows, and the history only grows at its end. *)
Definition evolui_conta (c c' : Conta) : Prop :=
  titular c' = titular c /\
  numero c' = numero c /\
  limite_saques_diarios c' = limite_saques_diarios c /\
  (exists novas, operacoes c' = (operacoes c ++ novas)%list) /\
  match classe c, classe c' with
  | ClasseConta, ClasseConta => True
  | ClasseCorrente o, ClasseCorrente o' => o' <= o
  | ClassePoupanca t, ClassePoupanca t' => t' = t
  | _, _ => False
  end.

(** The daily counter and its date are untouched. *)
Definition mesmos_contadores (c c' : Conta) : Prop :=
  saques_diarios c' = saques_diarios c /\
  ultima_atualizacao c' = ultima_atualizacao c.

(** No account of the store has a negative balance. *)
Definition saldos_nao_negativos (m : Mundo) : Prop :=
  forall r c, objs_contas m !! r = Some c -> 0 <= saldo c.

(** The example bank after twenty-five withdrawals of 1 from the
    [Corrente], all on day 100. *)
Definition mundo_muitos_saques : Mundo :=
  Eval vm_compute in
    fst (repetir 25 (saque banco_exemplo 1 1 100%Z 7%Z) mundo_exemplo).

(** Every exception the computation can raise satisfies [P]. *)
Definition so_levanta {A} (P : Excecao -> Prop) (c : M A) : Prop :=
  forall m e, snd (c m) = Levanta e -> P e.

(** The exceptions that do not come from the module's own [raise]
    statements completing: a failed attribute access, the recursion
    limit hit by a comparison, and (in the model only) a reference to no
    object. *)
Definition erro_fora_do_banco (e : Excecao) : Prop :=
  exc_classe e = AttributeError \/
  exc_classe e = RecursionError \/
  exc_classe e = ReferenciaInvalida.

(** ** Basic facts about the monad and the store *)

Lemma Qgtb_true (x y : Q) : Qgtb x y = true <-> y < x.
Proof.
  unfold Qgtb. rewrite negb_true_iff.
  split; intros H.
  - apply Qnot_le_lt. intros Hle. apply Qle_bool_iff in Hle. congruence.
  - destruct (Qle_bool x y) eqn:E; [|reflexivity].
    apply Qle_bool_iff in E. lra.
Qed.

Lemma Qgtb_false (x y : Q) : Qgtb x y = false <-> x <= y.
Proof.
  unfold Qgtb. rewrite negb_false_iff. apply Qle_bool_iff.
Qed.

Lemma bind_eq {A B} (c : M A) (k : A -> M B) (m : Mundo) :
  bind c k m =
  match c m with
  | (m', Retorna a) => k a m'
  | (m', Levanta e) => (m', Levanta e)
  end.
Proof. reflexivity. Qed.

Lemma ler_conta_ok (m : Mundo) (r : ref) (c : Conta) :
  objs_contas m !! r = Some c -> ler_conta r m = (m, Retorna c).
Proof. intros H. unfold ler_conta. now rewrite H. Qed.

Lemma escrever_conta_ok (m : Mundo) (r : ref) (c : Conta) f e :
  objs_contas m !! r = Some c ->
  escrever_conta r f e m = (grava r (f c) e m, Retorna tt).
Proof. intros H. unfold escrever_conta. now rewrite H. Qed.

Lemma grava_lookup (m : Mundo) (r : ref) (c : Conta) e :
  objs_contas (grava r c e m) !! r = Some c.
Proof. simpl. apply lookup_insert_eq. Qed.

Lemma grava_lookup_ne (m : Mundo) (r r' : ref) (c : Conta) e :
  r <> r' -> objs_contas (grava r c e m) !! r' = objs_contas m !! r'.
Proof. intros H. simpl. now apply lookup_insert_ne. Qed.

Lemma grava_rastro (m : Mundo) (r : ref) (c : Conta) e :
  rastro (grava r c e m) = (rastro m ++ [e])%list.
Proof. reflexivity. Qed.

Lemma grava_clientes (m : Mundo) (r : ref) (c : Conta) e :
  objs_clientes (grava r c e m) = objs_clientes m.
Proof. reflexivity. Qed.

(** Symbolic execution of a method body: unfold one layer of the monad,
    resolve the reads and writes against the known contents of the
    store. *)
Ltac le_store :=
  match goal with
  | H : objs_contas ?m !! ?r = Some ?c |- context [ler_conta ?r ?m] =>
      rewrite (ler_conta_ok m r c H)
  | |- context [ler_conta ?r (grava ?r ?c ?e ?m)] =>
      rewrite (ler_conta_ok (grava r c e m) r c (grava_lookup m r c e))
  | H : objs_contas ?m !! ?r = Some ?c |- context [escrever_conta ?r ?f ?e ?m] =>
      rewrite (escrever_conta_ok m r c f e H)
  | |- context [escrever_conta ?r ?f ?e' (grava ?r ?c ?e ?m)] =>
      rewrite (escrever_conta_ok (grava r c e m) r c f e' (grava_lookup m r c e))
  end.

Ltac executa :=
  repeat (first
    [ rewrite bind_eq
    | le_store
    | progress cbv beta iota delta
        [ret raise set_saldo set_saques_diarios set_ultima_atualizacao
         operacoes_append set_limite_cheque_especial
         get_limite_cheque_especial] ]).

(** ** Account-level behaviour *)

(** A debit within the balance. *)
Lemma debitar_dentro_do_saldo (m : Mundo) (r : ref) (c : Conta) (v : Q) :
  objs_contas m !! r = Some c ->
  v <= saldo c ->
  debitar r v m =
  (grava r (com_saldo c (saldo c - v)) (AtribuiSaldo r (saldo c - v)) m,
   Retorna true).
Proof.
  intros Hr Hv. apply Qgtb_false in Hv.
  unfold debitar. executa. rewrite Hv. simpl. executa. reflexivity.
Qed.

(** A debit above the balance on an account that is not a [Corrente]. *)
Lemma debitar_recusado (m : Mundo) (r : ref) (c : Conta) (v : Q) :
  objs_contas m !! r = Some c ->
  isinstance_Corrente c = false ->
  saldo c < v ->
  debitar r v m = (m, Retorna false).
Proof.
  intros Hr Hk Hv. apply Qgtb_true in Hv.
  unfold debitar. executa. rewrite Hv, Hk. reflexivity.
Qed.

Lemma debitar_cheque_especial_ok (m : Mundo) (r : ref) (c : Conta) (o v : Q) :
  objs_contas m !! r = Some c ->
  classe c = ClasseCorrente o ->
  saldo c < v ->
  v <= o + saldo c ->
  debitar r v m =
  (grava r (apos_cheque_especial c o v) (AtribuiSaldo r 0)
     (grava r (com_classe c (ClasseCorrente (o - (v - saldo c))))
        (AtribuiLimiteChequeEspecial r (o - (v - saldo c))) m),
   Retorna true).
Proof.
  intros Hr Hk Hlt Hle.
  apply Qgtb_true in Hlt. apply Qgtb_false in Hle.
  unfold debitar, debitar_com_cheque_especial, isinstance_Corrente.
  executa. rewrite Hlt, Hk. simpl. executa. rewrite Hk. executa.
  rewrite Hle. executa. rewrite Hk. reflexivity.
Qed.

Lemma debitar_cheque_especial_recusado (m : Mundo) (r : ref) (c : Conta)
    (o v : Q) :
  objs_contas m !! r = Some c ->
  classe c = ClasseCorrente o ->
  saldo c < v ->
  o + saldo c < v ->
  debitar r v m = (m, Retorna false).
Proof.
  intros Hr Hk Hlt Hgt.
  apply Qgtb_true in Hlt. apply Qgtb_true in Hgt.
  unfold debitar, debitar_com_cheque_especial, isinstance_Corrente.
  executa. rewrite Hlt, Hk. simpl. executa. rewrite Hk. executa.
  rewrite Hgt. reflexivity.
Qed.

Lemma creditar_ok (m : Mundo) (r : ref) (c : Conta) (v : Q) :
  objs_contas m !! r = Some c ->
  creditar r v m =
  (grava r (com_saldo c (saldo c + v)) (AtribuiSaldo r (saldo c + v)) m,
   Retorna tt).
Proof. intros Hr. unfold creditar. executa. reflexivity. Qed.

(** [debitar] never raises on an existing account, and it has exactly
    three outcomes. *)
Lemma debitar_casos (m : Mundo) (r : ref) (c : Conta) (v : Q) :
  objs_contas m !! r = Some c ->
  (saldo c < v /\
   match classe c with
   | ClasseCorrente o => o + saldo c < v
   | _ => True
   end /\
   debitar r v m = (m, Retorna false))
  \/ (v <= saldo c /\
      debitar r v m =
      (grava r (com_saldo c (saldo c - v)) (AtribuiSaldo r (saldo c - v)) m,
       Retorna true))
  \/ (exists o,
        classe c = ClasseCorrente o /\ saldo c < v /\ v <= o + saldo c /\
        debitar r v m =
        (grava r (apos_cheque_especial c o v) (AtribuiSaldo r 0)
           (grava r (com_classe c (ClasseCorrente (o - (v - saldo c))))
              (AtribuiLimiteChequeEspecial r (o - (v - saldo c))) m),
         Retorna true)).
Proof.
  intros Hr.
  destruct (Qlt_le_dec (saldo c) v) as [Hlt | Hle].
  - destruct (classe c) as [ | o | t] eqn:Hk.
    + left. repeat split; [assumption|].
      apply (debitar_recusado m r c v Hr); [|assumption].
      unfold isinstance_Corrente. now rewrite Hk.
    + destruct (Qlt_le_dec (o + saldo c) v) as [Hgt | Hok].
      * left. repeat split; [assumption | assumption |].
        now apply (debitar_cheque_especial_recusado m r c o v).
      * right. right. exists o. repeat split; try assumption.
        now apply debitar_cheque_especial_ok.
    + left. repeat split; [assumption|].
      apply (debitar_recusado m r c v Hr); [|assumption].
      unfold isinstance_Corrente. now rewrite Hk.
  - right. left. split; [assumption|].
    now apply debitar_dentro_do_saldo.
Qed.

Lemma verificar_reset_ok (m : Mundo) (r : ref) (c : Conta) (hoje : date) :
  objs_contas m !! r = Some c ->
  verificar_reset r hoje m = (mundo_apos_reset r c hoje m, Retorna tt).
Proof.
  intros Hr. unfold verificar_reset, mundo_apos_reset. executa.
  destruct (negb (hoje =? ultima_atualizacao c)%Z); executa; reflexivity.
Qed.

Lemma mundo_apos_reset_lookup (m : Mundo) (r : ref) (c : Conta) (hoje : date) :
  objs_contas m !! r = Some c ->
  objs_contas (mundo_apos_reset r c hoje m) !! r = Some (apos_reset c hoje).
Proof.
  intros Hr. unfold mundo_apos_reset, apos_reset.
  destruct (negb (hoje =? ultima_atualizacao c)%Z);
    [apply grava_lookup | assumption].
Qed.

Lemma mundo_apos_reset_lookup_ne (m : Mundo) (r r' : ref) (c : Conta)
    (hoje : date) :
  r <> r' ->
  objs_contas (mundo_apos_reset r c hoje m) !! r' = objs_contas m !! r'.
Proof.
  intros Hne. unfold mundo_apos_reset.
  destruct (negb (hoje =? ultima_atualizacao c)%Z); [|reflexivity].
  now rewrite !grava_lookup_ne.
Qed.

Lemma limite_saque_ok (m : Mundo) (r : ref) (c : Conta) (hoje : date) :
  objs_contas m !! r = Some c ->
  limite_saque r hoje m =
  (mundo_apos_reset r c hoje m,
   Retorna (if isinstance_Poupanca c then
              Z.ltb (saques_diarios (apos_reset c hoje))
                    (limite_saques_diarios c)
            else true)).
Proof.
  intros Hr. unfold limite_saque.
  rewrite bind_eq, (verificar_reset_ok m r c hoje Hr), bind_eq.
  rewrite (ler_conta_ok _ r _ (mundo_apos_reset_lookup m r c hoje Hr)).
  unfold apos_reset, isinstance_Poupanca.
  destruct (negb (hoje =? ultima_atualizacao c)%Z); simpl;
    destruct (classe c); reflexivity.
Qed.

(** The membership test reads the store and nothing else. *)
Lemma conta_in_mundo (r : ref) (l : list ref) (m : Mundo) :
  fst (conta_in r l m) = m.
Proof. reflexivity. Qed.



(** ** Bank-level behaviour *)

Lemma deposito_ok (m : Mundo) (b : Banco) (r : ref) (c : Conta) (v : Q)
    (agora : datetime) :
  registrada m b r ->
  objs_contas m !! r = Some c ->
  let op := mkOperacao (TipoStr "Deposito") v agora in
  let c1 := com_operacoes c (operacoes c ++ [op]) in
  deposito b r v agora m =
  (grava r (com_saldo c1 (saldo c + v)) (AtribuiSaldo r (saldo c + v))
     (grava r c1 (AnexaOperacao r op) m),
   Retorna tt).
Proof.
  intros Hreg Hr op c1. unfold deposito.
  rewrite bind_eq, Hreg. cbv beta iota delta [negb].
  unfold creditar. executa. reflexivity.
Qed.

(** An account the bank's test rejects: the code goes on to build the
    exception from [conta.numero], a [str], and the constructor fails on
    its attribute access. *)
Lemma raise_NonCountError_numero_ok {A} (m : Mundo) (r : ref) (c : Conta) :
  objs_contas m !! r = Some c ->
  @raise_NonCountError_numero A r m = (m, Levanta (erro_atributo "str" "numero")).
Proof.
  intros Hr. unfold raise_NonCountError_numero, NonCountError_new, attr_numero.
  executa. reflexivity.
Qed.

Lemma deposito_nao_registrada (m : Mundo) (b : Banco) (r : ref) (c : Conta)
    (v : Q) (agora : datetime) :
  nao_registrada m b r ->
  objs_contas m !! r = Some c ->
  deposito b r v agora m = (m, Levanta (erro_atributo "str" "numero")).
Proof.
  intros Hreg Hr. unfold deposito. rewrite bind_eq, Hreg. cbv beta iota delta [negb].
  now apply raise_NonCountError_numero_ok with c.
Qed.

Lemma saque_nao_registrada (m : Mundo) (b : Banco) (r : ref) (c : Conta)
    (v : Q) (hoje : date) (agora : datetime) :
  nao_registrada m b r ->
  objs_contas m !! r = Some c ->
  saque b r v hoje agora m = (m, Levanta (erro_atributo "str" "numero")).
Proof.
  intros Hreg Hr. unfold saque. rewrite bind_eq, Hreg. cbv beta iota delta [negb].
  now apply raise_NonCountError_numero_ok with c.
Qed.

Lemma transferencia_origem_nao_registrada (m : Mundo) (b : Banco)
    (r1 r2 : ref) (c : Conta) (v : Q) (agora1 agora2 : datetime) :
  nao_registrada m b r1 ->
  objs_contas m !! r1 = Some c ->
  transferencia b r1 r2 v agora1 agora2 m
  = (m, Levanta (erro_atributo "str" "numero")).
Proof.
  intros Hreg Hr. unfold transferencia.
  rewrite bind_eq, Hreg. cbv beta iota delta [negb].
  now apply raise_NonCountError_numero_ok with c.
Qed.

Lemma transferencia_destino_nao_registrada (m : Mundo) (b : Banco)
    (r1 r2 : ref) (c : Conta) (v : Q) (agora1 agora2 : datetime) :
  registrada m b r1 ->
  nao_registrada m b r2 ->
  objs_contas m !! r2 = Some c ->
  transferencia b r1 r2 v agora1 agora2 m
  = (m, Levanta (erro_atributo "str" "numero")).
Proof.
  intros Hreg1 Hreg2 Hr. unfold transferencia.
  rewrite bind_eq, Hreg1. cbv beta iota delta [negb].
  rewrite bind_eq, Hreg2. cbv beta iota delta [negb].
  now apply raise_NonCountError_numero_ok with c.
Qed.

(** ** The claims *)





(** C10. A new [Corrente] starts with overdraft limit exactly 5000.0 and
    a new [Poupanca] with interest rate exactly 0.001; both start with
    daily withdrawal count 0, daily withdrawal limit 20 and an empty
    history, and take balance, number and titular from the constructor
    arguments. *)
Theorem construtores_valores_iniciais
    (m : Mundo) (t : ref) (s : Q) (n : string) (hoje : date) :
  (exists m' c,
     novo_Corrente t s n hoje m = (m', Retorna (proximo m)) /\
     objs_contas m' !! proximo m = Some c /\
     classe c = ClasseCorrente 5000 /\
     saques_diarios c = 0%Z /\ limite_saques_diarios c = 20%Z /\
     operacoes c = [] /\
     saldo c = s /\ numero c = n /\ titular c = t)
  /\
  (exists m' c,
     novo_Poupanca t s n hoje m = (m', Retorna (proximo m)) /\
     objs_contas m' !! proximo m = Some c /\
     classe c = ClassePoupanca 0.001 /\
     saques_diarios c = 0%Z /\ limite_saques_diarios c = 20%Z /\
     operacoes c = [] /\
     saldo c = s /\ numero c = n /\ titular c = t).
Proof.
  split; eexists; eexists;
    (split; [reflexivity|]);
    (split; [simpl; apply lookup_insert_eq|]);
    repeat split.
Qed.

(** *** Withdrawals *)

Lemma apos_reset_campos (c : Conta) (hoje : date) :
  saldo (apos_reset c hoje) = saldo c /\
  operacoes (apos_reset c hoje) = operacoes c /\
  classe (apos_reset c hoje) = classe c /\
  limite_saques_diarios (apos_reset c hoje) = limite_saques_diarios c /\
  numero (apos_reset c hoje) = numero c /\
  titular (apos_reset c hoje) = titular c.
Proof.
  unfold apos_reset.
  destruct (negb (hoje =? ultima_atualizacao c)%Z); repeat split.
Qed.

Lemma apos_reset_mesmo_dia (c : Conta) :
  apos_reset c (ultima_atualizacao c) = c.
Proof. unfold apos_reset. now rewrite Z.eqb_refl. Qed.

Lemma mundo_apos_reset_mesmo_dia (m : Mundo) (r : ref) (c : Conta) :
  mundo_apos_reset r c (ultima_atualizacao c) m = m.
Proof. unfold mundo_apos_reset. now rewrite Z.eqb_refl. Qed.

Lemma apos_reset_outro_dia (c : Conta) (hoje : date) :
  hoje <> ultima_atualizacao c ->
  apos_reset c hoje = com_ultima_atualizacao (com_saques_diarios c 0%Z) hoje.
Proof.
  intros H. unfold apos_reset.
  apply Z.eqb_neq in H. now rewrite H.
Qed.


(** [saque] on a registered account, up to the debit attempt. *)
Lemma saque_passos (m : Mundo) (b : Banco) (r : ref) (c : Conta) (v : Q)
    (hoje : date) (agora : datetime) :
  registrada m b r ->
  objs_contas m !! r = Some c ->
  saque b r v hoje agora m =
  if (if isinstance_Poupanca c then
        Z.ltb (saques_diarios (apos_reset c hoje)) (limite_saques_diarios c)
      else true)
  then
    match debitar r v (mundo_apos_reset r c hoje m) with
    | (m1, Retorna true) =>
        (operacoes_append r (mkOperacao (TipoEnum SAQUE) v agora) ;;;
         c1 <- ler_conta r ;;
         set_saques_diarios r (saques_diarios c1 + 1)%Z) m1
    | (m1, Retorna false) => (m1, Levanta (OperationError_new msg_saldo))
    | (m1, Levanta e) => (m1, Levanta e)
    end
  else (mundo_apos_reset r c hoje m, Levanta (OperationError_new msg_limite)).
Proof.
  intros Hreg Hr. unfold saque.
  rewrite bind_eq, Hreg. cbv beta iota delta [negb].
  rewrite bind_eq, (limite_saque_ok m r c hoje Hr).
  destruct (if isinstance_Poupanca c then _ else true);
    cbv beta iota delta [negb]; [|reflexivity].
  rewrite bind_eq.
  destruct (debitar r v (mundo_apos_reset r c hoje m)) as [m1 [[ | ] | e]];
    reflexivity.
Qed.

(** The bookkeeping of a successful withdrawal. *)
Lemma saque_registro (m : Mundo) (r : ref) (c : Conta) (v : Q)
    (agora : datetime) :
  objs_contas m !! r = Some c ->
  let op := mkOperacao (TipoEnum SAQUE) v agora in
  let c1 := com_operacoes c (operacoes c ++ [op]) in
  (operacoes_append r op ;;;
   c1 <- ler_conta r ;;
   set_saques_diarios r (saques_diarios c1 + 1)%Z) m =
  (grava r (com_saques_diarios c1 (saques_diarios c + 1)%Z)
     (AtribuiSaquesDiarios r (saques_diarios c + 1)%Z)
     (grava r c1 (AnexaOperacao r op) m),
   Retorna tt).
Proof. intros Hr op c1. executa. reflexivity. Qed.

Lemma msg_limite_msg_saldo :
  OperationError_new msg_limite <> OperationError_new msg_saldo.
Proof. vm_compute. discriminate. Qed.





(** C9. A [Banco.saque] that fails with the [OperationError] for
    insufficient funds leaves the balance and the history (and every
    other account) unchanged, but it is not atomic: when the current day
    differs from the account's last-update day, the failed call has
    already put the daily withdrawal count to 0 and stamped the new
    day, so the store is not the one the call started from.  On the
    last-update day itself the failed call changes nothing. *)
Theorem saque_saldo_insuficiente_nao_atomico
    (m m' : Mundo) (b : Banco) (r : ref) (c : Conta) (v : Q)
    (hoje : date) (agora : datetime) :
  registrada m b r ->
  objs_contas m !! r = Some c ->
  saque b r v hoje agora m = (m', Levanta (OperationError_new msg_saldo)) ->
  exists c',
    objs_contas m' !! r = Some c' /\
    saldo c' = saldo c /\
    operacoes c' = operacoes c /\
    classe c' = classe c /\
    (forall r', r <> r' -> objs_contas m' !! r' = objs_contas m !! r') /\
    (hoje <> ultima_atualizacao c ->
       saques_diarios c' = 0%Z /\ ultima_atualizacao c' = hoje /\ m' <> m) /\
    (hoje = ultima_atualizacao c -> m' = m).
Proof.
  intros Hreg Hr Hs.
  rewrite (saque_passos m b r c v hoje agora Hreg Hr) in Hs.
  pose proof (mundo_apos_reset_lookup m r c hoje Hr) as Hr0.
  destruct (apos_reset_campos c hoje) as (Hsal & Hops & Hcl & _).
  assert (Hm' : m' = mundo_apos_reset r c hoje m).
  { destruct (if isinstance_Poupanca c then _ else true).
    - destruct (debitar_casos _ r _ v Hr0) as [(_ & _ & Hd) | [(_ & Hd) | Hd]].
      + rewrite Hd in Hs. congruence.
      + rewrite Hd in Hs.
        rewrite (saque_registro _ r _ v agora (grava_lookup _ _ _ _)) in Hs.
        discriminate.
      + destruct Hd as (o & _ & _ & _ & Hd). rewrite Hd in Hs.
        rewrite (saque_registro _ r _ v agora (grava_lookup _ _ _ _)) in Hs.
        discriminate.
    - exfalso. apply msg_limite_msg_saldo. congruence. }
  subst m'. exists (apos_reset c hoje).
  split; [exact Hr0|].
  split; [exact Hsal|]. split; [exact Hops|]. split; [exact Hcl|].
  split; [intros r' Hne; now apply mundo_apos_reset_lookup_ne|].
  split.
  - intros Hdia. rewrite (apos_reset_outro_dia c hoje Hdia).
    split; [reflexivity|]. split; [reflexivity|].
    intros Heq. rewrite Heq in Hr0. rewrite Hr in Hr0.
    rewrite (apos_reset_outro_dia c hoje Hdia) in Hr0.
    apply Hdia. injection Hr0 as Hc. rewrite Hc. reflexivity.
  - intros ->. apply mundo_apos_reset_mesmo_dia.
Qed.

Lemma saque_saldo_insuficiente_nao_atomico_witness :
  exists c',
    objs_contas (fst (saque banco_exemplo 2 60 101%Z 7%Z mundo_limite))
      !! 2%nat = Some c' /\
    saldo c' = saldo poupanca_no_limite /\
    operacoes c' = operacoes poupanca_no_limite /\
    classe c' = classe poupanca_no_limite /\
    (forall r', 2%nat <> r' ->
       objs_contas (fst (saque banco_exemplo 2 60 101%Z 7%Z mundo_limite))
         !! r' = objs_contas mundo_limite !! r') /\
    (101%Z <> ultima_atualizacao poupanca_no_limite ->
       saques_diarios c' = 0%Z /\ ultima_atualizacao c' = 101%Z /\
       fst (saque banco_exemplo 2 60 101%Z 7%Z mundo_limite) <> mundo_limite) /\
    (101%Z = ultima_atualizacao poupanca_no_limite ->
       fst (saque banco_exemplo 2 60 101%Z 7%Z mundo_limite) = mundo_limite).
Proof.
  apply (saque_saldo_insuficiente_nao_atomico mundo_limite _ banco_exemplo 2
           poupanca_no_limite 60 101%Z 7%Z);
    [vm_compute; reflexivity | reflexivity | vm_compute; reflexivity].
Defined.

(** *** Transfers *)





(** *** Sequences of credits and debits *)





(** *** Unregistered accounts and the type of logged operations *)

(** C2, at a failing input.  The account at reference 3 exists but was
    never registered, and the bank's test rejects it.  [deposito],
    [saque] and [transferencia] (with the unknown account on either
    side) leave the whole store untouched, but the exception that
    reaches the caller is the [AttributeError] raised inside
    [NonCountError.__init__], which is handed [conta.numero] (a [str])
    and reads [.numero] from it; it is not a [NonCountError], nor any
    [BankError]. *)
Theorem conta_nao_registrada_levanta_AttributeError :
  nao_registrada mundo_exemplo banco_exemplo 3 /\
  deposito banco_exemplo 3 10 7%Z mundo_exemplo
  = (mundo_exemplo, Levanta (erro_atributo "str" "numero")) /\
  saque banco_exemplo 3 10 100%Z 7%Z mundo_exemplo
  = (mundo_exemplo, Levanta (erro_atributo "str" "numero")) /\
  transferencia banco_exemplo 3 1 10 7%Z 8%Z mundo_exemplo
  = (mundo_exemplo, Levanta (erro_atributo "str" "numero")) /\
  transferencia banco_exemplo 1 3 10 7%Z 8%Z mundo_exemplo
  = (mundo_exemplo, Levanta (erro_atributo "str" "numero")) /\
  exc_classe (erro_atributo "str" "numero") = AttributeError /\
  subclasse (exc_classe (erro_atributo "str" "numero")) NonCountError = false /\
  subclasse (exc_classe (erro_atributo "str" "numero")) BankError = false.
Proof.
  assert (Hn : nao_registrada mundo_exemplo banco_exemplo 3)
    by (vm_compute; reflexivity).
  assert (H1 : registrada mundo_exemplo banco_exemplo 1)
    by (vm_compute; reflexivity).
  assert (H3 : objs_contas mundo_exemplo !! 3%nat
               = Some (mkConta 0 30 "003" 0 20 [] 100 (ClassePoupanca 0.001)))
    by reflexivity.
  split; [exact Hn|].
  split; [exact (deposito_nao_registrada _ _ _ _ _ _ Hn H3)|].
  split; [exact (saque_nao_registrada _ _ _ _ _ _ _ Hn H3)|].
  split; [exact (transferencia_origem_nao_registrada _ _ _ _ _ _ _ _ Hn H3)|].
  split;
    [exact (transferencia_destino_nao_registrada _ _ _ _ _ _ _ _ H1 Hn H3)|].
  repeat split.
Qed.

(** The test is an equality test: an object that was never registered
    but has the class and the field values of a registered one passes
    it, and the deposit is applied to that object. *)
Example copia_identica_passa_no_teste :
  let copia := Conta_init 0 50 "002" 100%Z (ClassePoupanca 0.001) in
  let '(m1, r) := aloca_conta copia mundo_exemplo in
  r = Retorna 4%nat /\
  ~ In 4%nat (contas banco_exemplo) /\
  registrada m1 banco_exemplo 4 /\
  snd (deposito banco_exemplo 4 10 7%Z m1) = Retorna tt.
Proof.
  cbv zeta. cbn [aloca_conta].
  split; [reflexivity|].
  split; [simpl; lia|].
  split; vm_compute; reflexivity.
Qed.

(** C7, at a failing input.  The [tipo] of the operation that
    [deposito] appends is the string ["Deposito"], and [transferencia]
    appends the strings ["Transferencia - Debito"] and
    ["Transferencia - Credito"]: none is a member of [TipoOperacao].
    Only [saque] logs a member of the enum ([TipoOperacao.SAQUE]). *)
Theorem deposito_e_transferencia_registram_str :
  (exists m' c',
     deposito banco_exemplo 2 10 7%Z mundo_exemplo = (m', Retorna tt) /\
     objs_contas m' !! 2%nat = Some c' /\
     map tipo (operacoes c') = [TipoStr "Deposito"] /\
     forallb (fun op => isinstance_TipoOperacao (tipo op)) (operacoes c')
     = false)
  /\
  (exists m' cA cB,
     transferencia banco_exemplo 1 2 40 7%Z 8%Z mundo_exemplo
     = (m', Retorna tt) /\
     objs_contas m' !! 1%nat = Some cA /\
     objs_contas m' !! 2%nat = Some cB /\
     map tipo (operacoes cA) = [TipoStr "Transferencia - Debito"] /\
     map tipo (operacoes cB) = [TipoStr "Transferencia - Credito"] /\
     forallb (fun op => isinstance_TipoOperacao (tipo op)) (operacoes cA)
     = false /\
     forallb (fun op => isinstance_TipoOperacao (tipo op)) (operacoes cB)
     = false)
  /\
  (exists m' c',
     saque banco_exemplo 2 10 100%Z 7%Z mundo_exemplo = (m', Retorna tt) /\
     objs_contas m' !! 2%nat = Some c' /\
     map tipo (operacoes c') = [TipoEnum SAQUE] /\
     forallb (fun op => isinstance_TipoOperacao (tipo op)) (operacoes c')
     = true).
Proof.
  split; [|split].
  - eexists. eexists.
    split; [vm_compute; reflexivity|].
    split; [vm_compute; reflexivity|].
    split; reflexivity.
  - eexists. eexists. eexists.
    split; [vm_compute; reflexivity|].
    split; [vm_compute; reflexivity|].
    split; [vm_compute; reflexivity|].
    repeat split.
  - eexists. eexists.
    split; [vm_compute; reflexivity|].
    split; [vm_compute; reflexivity|].
    split; reflexivity.
Qed.

(** The same, for every registered account and every amount. *)
Lemma deposito_registra_str (m : Mundo) (b : Banco) (r : ref) (c : Conta)
    (v : Q) (agora : datetime) :
  registrada m b r ->
  objs_contas m !! r = Some c ->
  exists c' op,
    objs_contas (fst (deposito b r v agora m)) !! r = Some c' /\
    operacoes c' = (operacoes c ++ [op])%list /\
    isinstance_TipoOperacao (tipo op) = false.
Proof.
  intros Hreg Hr.
  rewrite (deposito_ok m b r c v agora Hreg Hr). cbn [fst].
  eexists. eexists. split; [apply grava_lookup|].
  split; reflexivity.
Qed.

(** ** The invariant behind the hypotheses of C4 and C5

    The constructors build valid accounts, and no method of [Conta] or
    [Banco] breaks validity, whether it returns or raises: the overdraft
    limit of a [Corrente] stays non-negative and the daily limit stays
    positive in every store reached through the module's interface. *)

Lemma preserva_ret {A} (P : Mundo -> Prop) (a : A) : preserva P (ret a).
Proof. intros m Hm. exact Hm. Qed.

Lemma preserva_raise {A} (P : Mundo -> Prop) (e : Excecao) :
  preserva P (@raise A e).
Proof. intros m Hm. exact Hm. Qed.

Lemma preserva_bind {A B} (P : Mundo -> Prop) (c : M A) (k : A -> M B) :
  preserva P c -> (forall a, preserva P (k a)) -> preserva P (bind c k).
Proof.
  intros Hc Hk m Hm. specialize (Hc m Hm). rewrite bind_eq.
  destruct (c m) as [m1 [a | e]]; simpl in *; [|exact Hc].
  now apply Hk.
Qed.

Lemma preserva_ler_conta (P : Mundo -> Prop) (r : ref) :
  preserva P (ler_conta r).
Proof.
  intros m Hm. unfold ler_conta. now destruct (objs_contas m !! r).
Qed.

Lemma preserva_conta_in (P : Mundo -> Prop) (r : ref) (l : list ref) :
  preserva P (conta_in r l).
Proof. intros m Hm. exact Hm. Qed.

Lemma grava_valido (m : Mundo) (r : ref) (c : Conta) e :
  Mundo_valido m -> Conta_valida c -> Mundo_valido (grava r c e m).
Proof.
  intros Hm Hc r' c' Hl.
  destruct (decide (r = r')) as [<- | Hne].
  - rewrite grava_lookup in Hl. now inversion Hl; subst.
  - rewrite grava_lookup_ne in Hl by assumption. now apply (Hm r').
Qed.

Lemma preserva_escrever_conta (r : ref) (f : Conta -> Conta) e :
  (forall c, Conta_valida c -> Conta_valida (f c)) ->
  preserva Mundo_valido (escrever_conta r f e).
Proof.
  intros Hf m Hm. unfold escrever_conta.
  destruct (objs_contas m !! r) as [c | ] eqn:Hr; [|exact Hm].
  apply grava_valido; [exact Hm|]. apply Hf. now apply (Hm r).
Qed.

Lemma preserva_set_saldo (r : ref) (q : Q) :
  preserva Mundo_valido (set_saldo r q).
Proof. apply preserva_escrever_conta. now intros c Hc. Qed.

Lemma preserva_set_saques_diarios (r : ref) (n : Z) :
  preserva Mundo_valido (set_saques_diarios r n).
Proof. apply preserva_escrever_conta. now intros c Hc. Qed.

Lemma preserva_set_ultima_atualizacao (r : ref) (d : date) :
  preserva Mundo_valido (set_ultima_atualizacao r d).
Proof. apply preserva_escrever_conta. now intros c Hc. Qed.

Lemma preserva_operacoes_append (r : ref) (op : Operacao) :
  preserva Mundo_valido (operacoes_append r op).
Proof. apply preserva_escrever_conta. now intros c Hc. Qed.

Lemma preserva_creditar (r : ref) (v : Q) :
  preserva Mundo_valido (creditar r v).
Proof.
  apply preserva_bind; [apply preserva_ler_conta|].
  intros c. apply preserva_set_saldo.
Qed.

Lemma preserva_debitar (r : ref) (v : Q) :
  preserva Mundo_valido (debitar r v).
Proof.
  intros m Hm.
  destruct (objs_contas m !! r) as [c | ] eqn:Hr.
  - pose proof (Hm r c Hr) as [Hlim Hche].
    destruct (debitar_casos m r c v Hr)
      as [(_ & _ & Hd) | [(_ & Hd) | (o & Hk & Hlt & Hle & Hd)]];
      rewrite Hd; cbn [fst].
    + exact Hm.
    + apply grava_valido; [exact Hm|]. now split.
    + assert (Hv : Conta_valida (com_classe c (ClasseCorrente (o - (v - saldo c))))).
      { split; [exact Hlim|]. simpl. lra. }
      apply grava_valido; [apply grava_valido; assumption|].
      exact Hv.
  - unfold debitar. rewrite bind_eq. unfold ler_conta. rewrite Hr. exact Hm.
Qed.

Lemma preserva_aplicar_rendimentos (r : ref) :
  preserva Mundo_valido (aplicar_rendimentos r).
Proof.
  apply preserva_bind; [apply preserva_ler_conta|].
  intros c. destruct (classe c);
    (apply preserva_raise || apply preserva_set_saldo).
Qed.

Lemma preserva_verificar_reset (r : ref) (hoje : date) :
  preserva Mundo_valido (verificar_reset r hoje).
Proof.
  apply preserva_bind; [apply preserva_ler_conta|].
  intros c. destruct (negb _); [|apply preserva_ret].
  apply preserva_bind; [apply preserva_set_saques_diarios|].
  intros _. apply preserva_set_ultima_atualizacao.
Qed.

Lemma preserva_limite_saque (r : ref) (hoje : date) :
  preserva Mundo_valido (limite_saque r hoje).
Proof.
  apply preserva_bind; [apply preserva_verificar_reset|].
  intros _. apply preserva_bind; [apply preserva_ler_conta|].
  intros c. destruct (isinstance_Poupanca c); apply preserva_ret.
Qed.

Lemma preserva_raise_NonCountError_numero {A} (r : ref) :
  preserva Mundo_valido (@raise_NonCountError_numero A r).
Proof.
  apply preserva_bind; [apply preserva_ler_conta|].
  intros c. apply preserva_bind; [|intros e; apply preserva_raise].
  apply preserva_bind; [apply preserva_raise|].
  intros n. apply preserva_ret.
Qed.

Lemma preserva_deposito (b : Banco) (r : ref) (v : Q) (agora : datetime) :
  preserva Mundo_valido (deposito b r v agora).
Proof.
  apply preserva_bind; [apply preserva_conta_in|].
  intros p. destruct (negb p);
    [apply preserva_raise_NonCountError_numero|].
  apply preserva_bind; [apply preserva_operacoes_append|].
  intros _. apply preserva_creditar.
Qed.

Lemma preserva_saque (b : Banco) (r : ref) (v : Q) (hoje : date)
    (agora : datetime) :
  preserva Mundo_valido (saque b r v hoje agora).
Proof.
  apply preserva_bind; [apply preserva_conta_in|].
  intros p. destruct (negb p);
    [apply preserva_raise_NonCountError_numero|].
  apply preserva_bind; [apply preserva_limite_saque|].
  intros perm. destruct (negb perm); [apply preserva_raise|].
  apply preserva_bind; [apply preserva_debitar|].
  intros [ | ]; [|apply preserva_raise].
  apply preserva_bind; [apply preserva_operacoes_append|].
  intros _. apply preserva_bind; [apply preserva_ler_conta|].
  intros c. apply preserva_set_saques_diarios.
Qed.

Lemma preserva_transferencia (b : Banco) (r1 r2 : ref) (v : Q)
    (agora1 agora2 : datetime) :
  preserva Mundo_valido (transferencia b r1 r2 v agora1 agora2).
Proof.
  apply preserva_bind; [apply preserva_conta_in|].
  intros p1. destruct (negb p1);
    [apply preserva_raise_NonCountError_numero|].
  apply preserva_bind; [apply preserva_conta_in|].
  intros p2. destruct (negb p2);
    [apply preserva_raise_NonCountError_numero|].
  apply preserva_bind; [apply preserva_debitar|].
  intros [ | ]; [|apply preserva_raise].
  apply preserva_bind; [apply preserva_creditar|].
  intros _. apply preserva_bind; apply preserva_operacoes_append
    || (intros _; apply preserva_operacoes_append).
Qed.

Lemma Conta_init_valida (t : ref) (s : Q) (n : string) (hoje : date) :
  Conta_valida (Conta_init t s n hoje (ClasseCorrente 5000)) /\
  Conta_valida (Conta_init t s n hoje (ClassePoupanca 0.001)).
Proof. repeat split; simpl; (lia || lra || discriminate). Qed.

Lemma preserva_aloca_conta (c : Conta) :
  Conta_valida c -> preserva Mundo_valido (aloca_conta c).
Proof.
  intros Hc m Hm r' c' Hl. simpl in Hl.
  destruct (decide (proximo m = r')) as [<- | Hne].
  - rewrite lookup_insert_eq in Hl. now inversion Hl; subst.
  - rewrite lookup_insert_ne in Hl by assumption. now apply (Hm r').
Qed.

Lemma mundo_vazio_valido : Mundo_valido mundo_vazio.
Proof. intros r c Hl. simpl in Hl. now rewrite lookup_empty in Hl. Qed.

Lemma preserva_novo_Cliente (nome cpf : string) :
  preserva Mundo_valido (novo_Cliente nome cpf).
Proof. intros m Hm r c Hl. now apply (Hm r). Qed.

Lemma preserva_nova_conta (b : Banco) (cli conta : ref) :
  preserva Mundo_valido (nova_conta b cli conta).
Proof.
  intros m Hm. unfold nova_conta. rewrite bind_eq.
  cbv beta iota delta [cliente_in].
  destruct (list_contains _ (clientes b) cli) as [p | e]; [|exact Hm].
  destruct p; cbv beta iota delta [negb];
    rewrite bind_eq; unfold ler_cliente;
    destruct (objs_clientes m !! cli); exact Hm.
Qed.

(** Every reachable store is valid. *)
Lemma alcancavel_valido (m : Mundo) : alcancavel m -> Mundo_valido m.
Proof.
  induction 1 as
    [ n | m nome cpf _ IH | m t s n hoje _ IH | m t s n hoje _ IH
    | m b cli conta _ IH | m r v _ IH | m r v _ IH | m r _ IH
    | m r hoje _ IH
    | m b r v agora _ IH | m b r v hoje agora _ IH
    | m b r1 r2 v agora1 agora2 _ IH ].
  - intros r c Hl. simpl in Hl. now rewrite lookup_empty in Hl.
  - now apply preserva_novo_Cliente.
  - apply preserva_aloca_conta; [apply Conta_init_valida | exact IH].
  - apply preserva_aloca_conta; [apply Conta_init_valida | exact IH].
  - now apply preserva_nova_conta.
  - now apply preserva_creditar.
  - now apply preserva_debitar.
  - now apply preserva_aplicar_rendimentos.
  - now apply preserva_limite_saque.
  - now apply preserva_deposito.
  - now apply preserva_saque.
  - now apply preserva_transferencia.
Qed.

(** In a reachable store the overdraft limit of a [Corrente] is not
    negative and the daily limit of every account is positive. *)
Lemma alcancavel_limites (m : Mundo) (r : ref) (c : Conta) :
  alcancavel m ->
  objs_contas m !! r = Some c ->
  (0 < limite_saques_diarios c)%Z /\
  forall o, classe c = ClasseCorrente o -> 0 <= o.
Proof.
  intros Ha Hr. destruct (alcancavel_valido m Ha r c Hr) as [Hl Ho].
  split; [exact Hl|]. intros o Hk. now rewrite Hk in Ho.
Qed.

Lemma mundo_exemplo_alcancavel : alcancavel mundo_exemplo.
Proof.
  pose (m0 := mkMundo ∅ ∅ 0 1000 []).
  pose (m1 := fst (novo_Cliente "Ana" "123" m0)).
  pose (m2 := fst (novo_Corrente 0 100 "001" 100%Z m1)).
  pose (m3 := fst (novo_Poupanca 0 50 "002" 100%Z m2)).
  pose (m4 := fst (novo_Poupanca 0 30 "003" 100%Z m3)).
  pose (m5 := fst (nova_conta (mkBanco [0%nat] []) 0 1 m4)).
  pose (m6 := fst (nova_conta (mkBanco [0%nat] [1%nat]) 0 2 m5)).
  assert (H : alcancavel m6).
  { repeat first
      [ apply alc_nova_conta | apply alc_novo_Poupanca
      | apply alc_novo_Corrente | apply alc_novo_Cliente
      | apply alc_inicio ]. }
  assert (E : m6 = mundo_exemplo) by (vm_compute; reflexivity).
  now rewrite <- E.
Qed.

(** Aliasing: a transfer from an account to itself debits and credits
    the same object, so the balance ends where it started (up to the
    representation of the fraction) and the history gains both entries,
    the debit-side one first. *)
Example transferencia_para_a_propria_conta :
  exists m' c',
    transferencia banco_exemplo 2 2 40 7%Z 8%Z mundo_exemplo
    = (m', Retorna tt) /\
    objs_contas m' !! 2%nat = Some c' /\
    saldo c' == saldo poupanca_exemplo /\
    operacoes c' =
      [mkOperacao (TipoStr "Transferencia - Debito") 40 7%Z;
       mkOperacao (TipoStr "Transferencia - Credito") 40 8%Z].
Proof.
  eexists. eexists.
  split; [vm_compute; reflexivity|].
  split; [vm_compute; reflexivity|].
  split; reflexivity.
Qed.

(** The concrete bank of the examples is the one [abrir_banco] builds
    from nothing. *)
Example abrir_banco_ok :
  abrir_banco mundo_vazio
  = (mundo_exemplo, Retorna (banco_exemplo, 1%nat, 2%nat, 3%nat)).
Proof. vm_compute. reflexivity. Qed.

(** ** Further properties of the accounts *)





(** X2. [debitar] never raises on an existing account and never
    overdraws it: a balance that is not negative stays so, whatever the
    amount and whatever the class, and a refused debit changes
    nothing. *)
Theorem debitar_nao_deixa_saldo_negativo
    (m : Mundo) (r : ref) (c : Conta) (v : Q) :
  objs_contas m !! r = Some c ->
  0 <= saldo c ->
  exists m' ok c',
    debitar r v m = (m', Retorna ok) /\
    objs_contas m' !! r = Some c' /\
    0 <= saldo c' /\
    (ok = false -> m' = m).
Proof.
  intros Hr Hs.
  destruct (debitar_casos m r c v Hr)
    as [(_ & _ & Hd) | [(Hle & Hd) | (o & Hk & _ & _ & Hd)]]; rewrite Hd.
  - exists m, false, c. repeat split; assumption.
  - eexists. exists true. eexists.
    split; [reflexivity|]. split; [apply grava_lookup|].
    split; [simpl; lra | discriminate].
  - eexists. exists true. eexists.
    split; [reflexivity|]. split; [apply grava_lookup|].
    split; [simpl; lra | discriminate].
Qed.

Lemma debitar_nao_deixa_saldo_negativo_witness :
  exists m' ok c',
    debitar 2 60 mundo_exemplo = (m', Retorna ok) /\
    objs_contas m' !! 2%nat = Some c' /\
    0 <= saldo c' /\
    (ok = false -> m' = mundo_exemplo).
Proof.
  apply (debitar_nao_deixa_saldo_negativo mundo_exemplo 2 poupanca_exemplo 60);
    [reflexivity | vm_compute; discriminate].
Defined.



(** ** Relations between the store before and after a call *)

Section Relacao.

Variable R : Conta -> Conta -> Prop.
Hypothesis R_refl : forall c, R c c.
Hypothesis R_trans : forall a b c, R a b -> R b c -> R a c.

Lemma relaciona_refl (m : Mundo) : relaciona R m m.
Proof using R_refl. intros r c Hr. exists c. split; [exact Hr | apply R_refl]. Qed.

Lemma relaciona_trans (m1 m2 m3 : Mundo) :
  relaciona R m1 m2 -> relaciona R m2 m3 -> relaciona R m1 m3.
Proof using R_trans.
  intros H12 H23 r c Hr.
  destruct (H12 r c Hr) as (c2 & Hr2 & Hc2).
  destruct (H23 r c2 Hr2) as (c3 & Hr3 & Hc3).
  exists c3. split; [exact Hr3 | now apply R_trans with c2].
Qed.

Lemma relaciona_grava (m : Mundo) (r : ref) (c c' : Conta) e :
  objs_contas m !! r = Some c -> R c c' -> relaciona R m (grava r c' e m).
Proof using R_refl.
  intros Hr Hc r0 c0 Hr0.
  destruct (decide (r = r0)) as [<- | Hne].
  - exists c'. split; [apply grava_lookup|]. congruence.
  - exists c0. split; [now rewrite grava_lookup_ne | apply R_refl].
Qed.

Lemma mantem_ret {A} (a : A) : mantem R (ret a).
Proof using R_refl. intros m. apply relaciona_refl. Qed.

Lemma mantem_raise {A} (e : Excecao) : mantem R (@raise A e).
Proof using R_refl. intros m. apply relaciona_refl. Qed.

Lemma mantem_bind {A B} (c : M A) (k : A -> M B) :
  mantem R c -> (forall a, mantem R (k a)) -> mantem R (bind c k).
Proof using R_trans.
  intros Hc Hk m. specialize (Hc m). rewrite bind_eq.
  destruct (c m) as [m1 [a | e]]; simpl in *; [|exact Hc].
  apply relaciona_trans with m1; [exact Hc | apply Hk].
Qed.

Lemma mantem_ler_conta (r : ref) : mantem R (ler_conta r).
Proof using R_refl.
  intros m. unfold ler_conta.
  destruct (objs_contas m !! r); apply relaciona_refl.
Qed.

Lemma mantem_conta_in (r : ref) (l : list ref) : mantem R (conta_in r l).
Proof using R_refl. intros m. apply relaciona_refl. Qed.

Lemma mantem_escrever_conta (r : ref) (f : Conta -> Conta) e :
  (forall c, R c (f c)) -> mantem R (escrever_conta r f e).
Proof using R_refl.
  intros Hf m. unfold escrever_conta.
  destruct (objs_contas m !! r) as [c | ] eqn:Hr; [|apply relaciona_refl].
  apply relaciona_grava with c; [exact Hr | apply Hf].
Qed.

Lemma mantem_raise_NonCountError_numero {A} (r : ref) :
  mantem R (@raise_NonCountError_numero A r).
Proof using R_refl R_trans.
  apply mantem_bind; [apply mantem_ler_conta|].
  intros c. apply mantem_bind; [|intros e; apply mantem_raise].
  apply mantem_bind; [apply mantem_raise|].
  intros n. apply mantem_ret.
Qed.

End Relacao.

Lemma evolui_conta_refl (c : Conta) : evolui_conta c c.
Proof.
  repeat split. - exists []. now rewrite app_nil_r.
  - destruct (classe c); (exact I || lra || reflexivity).
Qed.

Lemma evolui_conta_trans (a b c : Conta) :
  evolui_conta a b -> evolui_conta b c -> evolui_conta a c.
Proof.
  intros (Ht1 & Hn1 & Hl1 & (k1 & Ho1) & Hk1) (Ht2 & Hn2 & Hl2 & (k2 & Ho2) & Hk2).
  repeat split; try congruence.
  - exists (k1 ++ k2)%list. rewrite Ho2, Ho1. now rewrite app_assoc.
  - destruct (classe a), (classe b), (classe c); try tauto; try lra; congruence.
Qed.

(** A write that touches neither the history nor the class. *)
Lemma evolui_conta_campos (c c' : Conta) :
  titular c' = titular c -> numero c' = numero c ->
  limite_saques_diarios c' = limite_saques_diarios c ->
  operacoes c' = operacoes c -> classe c' = classe c ->
  evolui_conta c c'.
Proof.
  intros Ht Hn Hl Ho Hk. repeat split; try assumption.
  - exists []. now rewrite app_nil_r.
  - rewrite Hk. destruct (classe c); (exact I || lra || reflexivity).
Qed.

Lemma evolui_set_saldo (r : ref) (q : Q) : mantem evolui_conta (set_saldo r q).
Proof.
  apply mantem_escrever_conta; [apply evolui_conta_refl|].
  intros c. now apply evolui_conta_campos.
Qed.

Lemma evolui_set_saques_diarios (r : ref) (n : Z) :
  mantem evolui_conta (set_saques_diarios r n).
Proof.
  apply mantem_escrever_conta; [apply evolui_conta_refl|].
  intros c. now apply evolui_conta_campos.
Qed.

Lemma evolui_set_ultima_atualizacao (r : ref) (d : date) :
  mantem evolui_conta (set_ultima_atualizacao r d).
Proof.
  apply mantem_escrever_conta; [apply evolui_conta_refl|].
  intros c. now apply evolui_conta_campos.
Qed.

Lemma evolui_operacoes_append (r : ref) (op : Operacao) :
  mantem evolui_conta (operacoes_append r op).
Proof.
  apply mantem_escrever_conta; [apply evolui_conta_refl|].
  intros c. repeat split.
  - now exists [op].
  - simpl. destruct (classe c); (exact I || lra || reflexivity).
Qed.

Lemma evolui_creditar (r : ref) (v : Q) : mantem evolui_conta (creditar r v).
Proof.
  apply mantem_bind;
    [apply evolui_conta_trans
    | apply mantem_ler_conta, evolui_conta_refl |].
  intros c. apply evolui_set_saldo.
Qed.

Lemma evolui_debitar (r : ref) (v : Q) : mantem evolui_conta (debitar r v).
Proof.
  intros m.
  destruct (objs_contas m !! r) as [c | ] eqn:Hr.
  - destruct (debitar_casos m r c v Hr)
      as [(_ & _ & Hd) | [(_ & Hd) | (o & Hk & Hlt & Hle & Hd)]];
      rewrite Hd; cbn [fst].
    + apply relaciona_refl, evolui_conta_refl.
    + apply relaciona_grava with c;
        [apply evolui_conta_refl | exact Hr |].
      now apply evolui_conta_campos.
    + apply relaciona_trans with
        (grava r (com_classe c (ClasseCorrente (o - (v - saldo c))))
           (AtribuiLimiteChequeEspecial r (o - (v - saldo c))) m);
        [apply evolui_conta_trans | |].
      * apply relaciona_grava with c;
          [apply evolui_conta_refl | exact Hr |].
        repeat split.
        -- exists []. now rewrite app_nil_r.
        -- simpl. rewrite Hk. lra.
      * apply relaciona_grava
          with (com_classe c (ClasseCorrente (o - (v - saldo c))));
          [apply evolui_conta_refl | apply grava_lookup |].
        now apply evolui_conta_campos.
  - unfold debitar. rewrite bind_eq. unfold ler_conta. rewrite Hr.
    apply relaciona_refl, evolui_conta_refl.
Qed.

Lemma evolui_aplicar_rendimentos (r : ref) :
  mantem evolui_conta (aplicar_rendimentos r).
Proof.
  apply mantem_bind;
    [apply evolui_conta_trans
    | apply mantem_ler_conta, evolui_conta_refl |].
  intros c. destruct (classe c);
    (apply mantem_raise, evolui_conta_refl || apply evolui_set_saldo).
Qed.

Lemma evolui_limite_saque (r : ref) (hoje : date) :
  mantem evolui_conta (limite_saque r hoje).
Proof.
  apply mantem_bind; [apply evolui_conta_trans | |].
  - apply mantem_bind;
      [apply evolui_conta_trans
      | apply mantem_ler_conta, evolui_conta_refl |].
    intros c. destruct (negb _); [|apply mantem_ret, evolui_conta_refl].
    apply mantem_bind;
      [apply evolui_conta_trans | apply evolui_set_saques_diarios |].
    intros _. apply evolui_set_ultima_atualizacao.
  - intros _. apply mantem_bind;
      [apply evolui_conta_trans
      | apply mantem_ler_conta, evolui_conta_refl |].
    intros c. destruct (isinstance_Poupanca c);
      apply mantem_ret, evolui_conta_refl.
Qed.

Lemma evolui_deposito (b : Banco) (r : ref) (v : Q) (agora : datetime) :
  mantem evolui_conta (deposito b r v agora).
Proof.
  apply mantem_bind;
    [apply evolui_conta_trans
    | apply mantem_conta_in, evolui_conta_refl |].
  intros p. destruct (negb p).
  - apply mantem_raise_NonCountError_numero;
      [apply evolui_conta_refl | apply evolui_conta_trans].
  - apply mantem_bind;
      [apply evolui_conta_trans | apply evolui_operacoes_append |].
    intros _. apply evolui_creditar.
Qed.

Lemma evolui_saque (b : Banco) (r : ref) (v : Q) (hoje : date)
    (agora : datetime) :
  mantem evolui_conta (saque b r v hoje agora).
Proof.
  apply mantem_bind;
    [apply evolui_conta_trans
    | apply mantem_conta_in, evolui_conta_refl |].
  intros p. destruct (negb p).
  - apply mantem_raise_NonCountError_numero;
      [apply evolui_conta_refl | apply evolui_conta_trans].
  - apply mantem_bind;
      [apply evolui_conta_trans | apply evolui_limite_saque |].
    intros perm. destruct (negb perm);
      [apply mantem_raise, evolui_conta_refl|].
    apply mantem_bind; [apply evolui_conta_trans | apply evolui_debitar |].
    intros [ | ]; [|apply mantem_raise, evolui_conta_refl].
    apply mantem_bind;
      [apply evolui_conta_trans | apply evolui_operacoes_append |].
    intros _. apply mantem_bind;
      [apply evolui_conta_trans
      | apply mantem_ler_conta, evolui_conta_refl |].
    intros c. apply evolui_set_saques_diarios.
Qed.

Lemma evolui_transferencia (b : Banco) (r1 r2 : ref) (v : Q)
    (agora1 agora2 : datetime) :
  mantem evolui_conta (transferencia b r1 r2 v agora1 agora2).
Proof.
  apply mantem_bind;
    [apply evolui_conta_trans
    | apply mantem_conta_in, evolui_conta_refl |].
  intros p1. destruct (negb p1).
  { apply mantem_raise_NonCountError_numero;
      [apply evolui_conta_refl | apply evolui_conta_trans]. }
  apply mantem_bind;
    [apply evolui_conta_trans
    | apply mantem_conta_in, evolui_conta_refl |].
  intros p2. destruct (negb p2).
  { apply mantem_raise_NonCountError_numero;
      [apply evolui_conta_refl | apply evolui_conta_trans]. }
  apply mantem_bind; [apply evolui_conta_trans | apply evolui_debitar |].
  intros [ | ]; [|apply mantem_raise, evolui_conta_refl].
  apply mantem_bind; [apply evolui_conta_trans | apply evolui_creditar |].
  intros _.
  apply mantem_bind;
    [apply evolui_conta_trans | apply evolui_operacoes_append |].
  intros _. apply evolui_operacoes_append.
Qed.

(** X4. No method ever loses an account or rewrites its past: after
    [deposito], [saque], [transferencia], [creditar], [debitar],
    [aplicar_rendimentos] or [limite_saque], returning or raising,
    every account of the store is still there with the same titular,
    number, daily limit and class, an interest rate that is the same, an
    overdraft limit that is not larger, and a history that extends the
    old one at its end. *)
Theorem metodos_so_evoluem_as_contas :
  (forall b r v agora, mantem evolui_conta (deposito b r v agora)) /\
  (forall b r v hoje agora, mantem evolui_conta (saque b r v hoje agora)) /\
  (forall b r1 r2 v agora1 agora2,
     mantem evolui_conta (transferencia b r1 r2 v agora1 agora2)) /\
  (forall r v, mantem evolui_conta (creditar r v)) /\
  (forall r v, mantem evolui_conta (debitar r v)) /\
  (forall r, mantem evolui_conta (aplicar_rendimentos r)) /\
  (forall r hoje, mantem evolui_conta (limite_saque r hoje)).
Proof.
  repeat split; intros.
  - apply evolui_deposito.
  - apply evolui_saque.
  - apply evolui_transferencia.
  - apply evolui_creditar.
  - apply evolui_debitar.
  - apply evolui_aplicar_rendimentos.
  - apply evolui_limite_saque.
Qed.

(** *** The daily counter is the business of [saque] alone *)

Lemma mesmos_contadores_refl (c : Conta) : mesmos_contadores c c.
Proof. now split. Qed.

Lemma mesmos_contadores_trans (a b c : Conta) :
  mesmos_contadores a b -> mesmos_contadores b c -> mesmos_contadores a c.
Proof. intros [H1 H2] [H3 H4]. split; congruence. Qed.

(** Composition of the proofs that a method body keeps a relation: the
    body is taken apart along its binds and branches, and each write is
    checked on the record update it performs. *)
Ltac compoe_mantem Hrefl Htrans :=
  repeat first
    [ apply mantem_ret; exact Hrefl
    | apply mantem_raise; exact Hrefl
    | apply mantem_ler_conta; exact Hrefl
    | apply mantem_conta_in; exact Hrefl
    | apply mantem_raise_NonCountError_numero; [exact Hrefl | exact Htrans]
    | apply mantem_bind; [exact Htrans | | intros ?]
    | apply mantem_escrever_conta;
        [exact Hrefl
        | let c := fresh "c" in
          intros c; try destruct (classe c); split; reflexivity]
    | match goal with
      | |- mantem _ (if ?b then _ else _) => destruct b
      | |- mantem _ (match classe ?c with _ => _ end) => destruct (classe c)
      end ].

Lemma contadores_debitar (r : ref) (v : Q) :
  mantem mesmos_contadores (debitar r v).
Proof.
  unfold debitar, debitar_com_cheque_especial, get_limite_cheque_especial,
    set_limite_cheque_especial, set_saldo.
  compoe_mantem mesmos_contadores_refl mesmos_contadores_trans.
Qed.

Lemma contadores_creditar (r : ref) (v : Q) :
  mantem mesmos_contadores (creditar r v).
Proof.
  unfold creditar, set_saldo.
  compoe_mantem mesmos_contadores_refl mesmos_contadores_trans.
Qed.

Lemma contadores_deposito (b : Banco) (r : ref) (v : Q) (agora : datetime) :
  mantem mesmos_contadores (deposito b r v agora).
Proof.
  unfold deposito, operacoes_append.
  apply mantem_bind; [exact mesmos_contadores_trans | |intros p].
  - apply mantem_conta_in. exact mesmos_contadores_refl.
  - destruct (negb p).
    + apply mantem_raise_NonCountError_numero;
        [exact mesmos_contadores_refl | exact mesmos_contadores_trans].
    + apply mantem_bind; [exact mesmos_contadores_trans | |intros _].
      * apply mantem_escrever_conta; [exact mesmos_contadores_refl|].
        intros c. now split.
      * apply contadores_creditar.
Qed.

Lemma contadores_transferencia (b : Banco) (r1 r2 : ref) (v : Q)
    (agora1 agora2 : datetime) :
  mantem mesmos_contadores (transferencia b r1 r2 v agora1 agora2).
Proof.
  unfold transferencia, operacoes_append.
  apply mantem_bind; [exact mesmos_contadores_trans | |intros p1].
  { apply mantem_conta_in. exact mesmos_contadores_refl. }
  destruct (negb p1).
  { apply mantem_raise_NonCountError_numero;
      [exact mesmos_contadores_refl | exact mesmos_contadores_trans]. }
  apply mantem_bind; [exact mesmos_contadores_trans | |intros p2].
  { apply mantem_conta_in. exact mesmos_contadores_refl. }
  destruct (negb p2).
  { apply mantem_raise_NonCountError_numero;
      [exact mesmos_contadores_refl | exact mesmos_contadores_trans]. }
  apply mantem_bind; [exact mesmos_contadores_trans | |intros ok].
  { apply contadores_debitar. }
  destruct ok; [|apply mantem_raise; exact mesmos_contadores_refl].
  apply mantem_bind; [exact mesmos_contadores_trans | |intros _].
  { apply contadores_creditar. }
  apply mantem_bind; [exact mesmos_contadores_trans | |intros _];
    (apply mantem_escrever_conta; [exact mesmos_contadores_refl|];
     intros c; now split).
Qed.

(** X5. A transfer is not a withdrawal for the daily limit, and neither
    is a deposit: whatever their outcome, [transferencia] and
    [deposito] leave the daily withdrawal count and the last-update
    date of every account as they found them. *)
Theorem transferencia_e_deposito_nao_contam_saque :
  (forall b r1 r2 v agora1 agora2,
     mantem mesmos_contadores (transferencia b r1 r2 v agora1 agora2)) /\
  (forall b r v agora, mantem mesmos_contadores (deposito b r v agora)).
Proof.
  split; intros; [apply contadores_transferencia | apply contadores_deposito].
Qed.

Example transferencia_de_poupanca_no_limite :
  snd (saque banco_exemplo 2 5 100%Z 7%Z mundo_limite)
  = Levanta (OperationError_new msg_limite) /\
  snd (transferencia banco_exemplo 2 1 5 7%Z 8%Z mundo_limite) = Retorna tt.
Proof. split; vm_compute; reflexivity. Qed.

(** *** Which exceptions can be raised *)

Lemma so_levanta_ret {A} (P : Excecao -> Prop) (a : A) : so_levanta P (ret a).
Proof. intros m e H. discriminate. Qed.

Lemma so_levanta_raise {A} (P : Excecao -> Prop) (e : Excecao) :
  P e -> so_levanta P (@raise A e).
Proof. intros He m e' H. simpl in H. now inversion H; subst. Qed.

Lemma so_levanta_bind {A B} (P : Excecao -> Prop) (c : M A) (k : A -> M B) :
  so_levanta P c -> (forall a, so_levanta P (k a)) -> so_levanta P (bind c k).
Proof.
  intros Hc Hk m e. rewrite bind_eq. specialize (Hc m).
  destruct (c m) as [m1 [a | e1]]; simpl in *.
  - apply Hk.
  - intros H. inversion H; subst. now apply Hc.
Qed.

Lemma erro_referencia_fora : erro_fora_do_banco erro_referencia.
Proof. right. right. reflexivity. Qed.

Lemma erro_recursao_fora : erro_fora_do_banco erro_recursao.
Proof. right. left. reflexivity. Qed.

Lemma erro_atributo_fora (t a : string) : erro_fora_do_banco (erro_atributo t a).
Proof. left. reflexivity. Qed.

Lemma pares_eq_erros (P : Excecao -> Prop) eq (xs ys : list ref) (e : Excecao) :
  (forall a b e, eq a b = Levanta e -> P e) ->
  pares_eq eq xs ys = Levanta e -> P e.
Proof.
  intros Heq. revert ys.
  induction xs as [ | x xs IH]; intros [ | y ys]; simpl; try discriminate.
  destruct (eq x y) as [[ | ] | e'] eqn:E; try discriminate.
  - apply IH.
  - intros H. inversion H; subst. now apply (Heq x y).
Qed.

(** The generated comparisons raise nothing but [RecursionError], or the
    model's invalid reference. *)
Lemma eq_erros (n : nat) (m : Mundo) :
  (forall a b e, Conta_eq n m a b = Levanta e -> erro_fora_do_banco e) /\
  (forall x y e, Cliente_eq n m x y = Levanta e -> erro_fora_do_banco e).
Proof.
  induction n as [ | n [IHc IHk]].
  - split; intros ? ? e H; simpl in H; inversion H; apply erro_recursao_fora.
  - split.
    + intros a b e H. cbn [Conta_eq] in H.
      destruct (objs_contas m !! a) as [ca | ];
        [|inversion H; apply erro_referencia_fora].
      destruct (objs_contas m !! b) as [cb | ];
        [|inversion H; apply erro_referencia_fora].
      destruct (negb _); [discriminate|].
      destruct (Nat.eqb (titular ca) (titular cb)); [discriminate|].
      destruct (Cliente_eq n m (titular ca) (titular cb))
        as [[ | ] | e'] eqn:E; try discriminate.
      inversion H; subst. now apply (IHk _ _ _ E).
    + intros x y e H. cbn [Cliente_eq] in H.
      destruct (objs_clientes m !! x) as [cx | ];
        [|inversion H; apply erro_referencia_fora].
      destruct (objs_clientes m !! y) as [cy | ];
        [|inversion H; apply erro_referencia_fora].
      destruct (_ && _); [|discriminate].
      unfold lista_refs_eq in H.
      destruct (negb _); [discriminate|].
      apply (pares_eq_erros erro_fora_do_banco _ _ _ e) in H; [exact H|].
      intros a b e' Hab.
      destruct (Nat.eqb a b); [discriminate|]. now apply (IHc _ _ _ Hab).
Qed.

Lemma list_contains_erros (P : Excecao -> Prop) eq (l : list ref) (x : ref)
    (e : Excecao) :
  (forall a b e, eq a b = Levanta e -> P e) ->
  list_contains eq l x = Levanta e -> P e.
Proof.
  intros Heq. induction l as [ | item l IH]; simpl; [discriminate|].
  destruct (Nat.eqb item x); [discriminate|].
  destruct (eq item x) as [[ | ] | e'] eqn:E; try discriminate.
  - exact IH.
  - intros H. inversion H; subst. now apply (Heq item x).
Qed.

Section ExcecoesDeFora.

Variable P : Excecao -> Prop.
Hypothesis P_fora : forall e, erro_fora_do_banco e -> P e.

Lemma so_levanta_ler_conta (r : ref) : so_levanta P (ler_conta r).
Proof using P_fora.
  intros m e. unfold ler_conta.
  destruct (objs_contas m !! r); simpl; [discriminate|].
  intros H. inversion H. apply P_fora, erro_referencia_fora.
Qed.

Lemma so_levanta_escrever_conta (r : ref) (f : Conta -> Conta) ef :
  so_levanta P (escrever_conta r f ef).
Proof using P_fora.
  intros m e. unfold escrever_conta.
  destruct (objs_contas m !! r); simpl; [discriminate|].
  intros H. inversion H. apply P_fora, erro_referencia_fora.
Qed.

Lemma so_levanta_conta_in (r : ref) (l : list ref) :
  so_levanta P (conta_in r l).
Proof using P_fora.
  intros m e. unfold conta_in. cbn [snd]. intros H.
  apply P_fora.
  apply (list_contains_erros erro_fora_do_banco _ _ _ _
           (proj1 (eq_erros (limite_recursao m) m)) H).
Qed.

Lemma so_levanta_raise_NonCountError_numero {A} (r : ref) :
  so_levanta P (@raise_NonCountError_numero A r).
Proof using P_fora.
  intros m e.
  destruct (objs_contas m !! r) as [c | ] eqn:Hr.
  - rewrite (raise_NonCountError_numero_ok m r c Hr). cbn [snd].
    intros H. inversion H. apply P_fora, erro_atributo_fora.
  - unfold raise_NonCountError_numero. rewrite bind_eq.
    unfold ler_conta. rewrite Hr. cbn [snd].
    intros H. inversion H. apply P_fora, erro_referencia_fora.
Qed.

Lemma so_levanta_debitar (r : ref) (v : Q) : so_levanta P (debitar r v).
Proof using P_fora.
  intros m e.
  destruct (objs_contas m !! r) as [c | ] eqn:Hr.
  - destruct (debitar_casos m r c v Hr)
      as [(_ & _ & Hd) | [(_ & Hd) | (o & _ & _ & _ & Hd)]];
      rewrite Hd; discriminate.
  - unfold debitar. rewrite bind_eq. unfold ler_conta. rewrite Hr. cbn [snd].
    intros H. inversion H. apply P_fora, erro_referencia_fora.
Qed.

Lemma so_levanta_creditar (r : ref) (v : Q) : so_levanta P (creditar r v).
Proof using P_fora.
  apply so_levanta_bind; [apply so_levanta_ler_conta|].
  intros c. apply so_levanta_escrever_conta.
Qed.

Lemma so_levanta_limite_saque (r : ref) (hoje : date) :
  so_levanta P (limite_saque r hoje).
Proof using P_fora.
  apply so_levanta_bind; [|intros _].
  - apply so_levanta_bind; [apply so_levanta_ler_conta|].
    intros c. destruct (negb _); [|apply so_levanta_ret].
    apply so_levanta_bind; [apply so_levanta_escrever_conta|].
    intros _. apply so_levanta_escrever_conta.
  - apply so_levanta_bind; [apply so_levanta_ler_conta|].
    intros c. destruct (isinstance_Poupanca c); apply so_levanta_ret.
Qed.

Lemma so_levanta_deposito (b : Banco) (r : ref) (v : Q) (agora : datetime) :
  so_levanta P (deposito b r v agora).
Proof using P_fora.
  apply so_levanta_bind; [apply so_levanta_conta_in|].
  intros p. destruct (negb p);
    [apply so_levanta_raise_NonCountError_numero|].
  apply so_levanta_bind; [apply so_levanta_escrever_conta|].
  intros _. apply so_levanta_creditar.
Qed.

Lemma so_levanta_transferencia (b : Banco) (r1 r2 : ref) (v : Q)
    (agora1 agora2 : datetime) :
  P (OperationError_new msg_saldo) ->
  so_levanta P (transferencia b r1 r2 v agora1 agora2).
Proof using P_fora.
  intros Hs.
  apply so_levanta_bind; [apply so_levanta_conta_in|].
  intros p1. destruct (negb p1);
    [apply so_levanta_raise_NonCountError_numero|].
  apply so_levanta_bind; [apply so_levanta_conta_in|].
  intros p2. destruct (negb p2);
    [apply so_levanta_raise_NonCountError_numero|].
  apply so_levanta_bind; [apply so_levanta_debitar|].
  intros [ | ]; [|now apply so_levanta_raise].
  apply so_levanta_bind; [apply so_levanta_creditar|].
  intros _. apply so_levanta_bind; [apply so_levanta_escrever_conta|].
  intros _. apply so_levanta_escrever_conta.
Qed.

Lemma so_levanta_saque (b : Banco) (r : ref) (v : Q) (hoje : date)
    (agora : datetime) :
  P (OperationError_new msg_saldo) ->
  P (OperationError_new msg_limite) ->
  so_levanta P (saque b r v hoje agora).
Proof using P_fora.
  intros Hs Hl.
  apply so_levanta_bind; [apply so_levanta_conta_in|].
  intros p. destruct (negb p);
    [apply so_levanta_raise_NonCountError_numero|].
  apply so_levanta_bind; [apply so_levanta_limite_saque|].
  intros perm. destruct (negb perm); [now apply so_levanta_raise|].
  apply so_levanta_bind; [apply so_levanta_debitar|].
  intros [ | ]; [|now apply so_levanta_raise].
  apply so_levanta_bind; [apply so_levanta_escrever_conta|].
  intros _. apply so_levanta_bind; [apply so_levanta_ler_conta|].
  intros c. apply so_levanta_escrever_conta.
Qed.

End ExcecoesDeFora.

(** X6. What the three operations of [Banco] can raise, on any input:
    [deposito] raises nothing of the module's own; [transferencia] can
    add only the insufficient-funds [OperationError], and [saque] that
    one and the daily-limit one.  Everything else is an exception from
    outside the module's classes ([AttributeError], [RecursionError]),
    so none of the three ever raises [NonCountError], nor any other
    [BankError]. *)
Theorem excecoes_das_operacoes_do_banco :
  (forall b r v agora,
     so_levanta erro_fora_do_banco (deposito b r v agora)) /\
  (forall b r1 r2 v agora1 agora2,
     so_levanta
       (fun e => erro_fora_do_banco e \/ e = OperationError_new msg_saldo)
       (transferencia b r1 r2 v agora1 agora2)) /\
  (forall b r v hoje agora,
     so_levanta
       (fun e => erro_fora_do_banco e \/ e = OperationError_new msg_saldo
                 \/ e = OperationError_new msg_limite)
       (saque b r v hoje agora)) /\
  (forall e,
     erro_fora_do_banco e \/ e = OperationError_new msg_saldo
     \/ e = OperationError_new msg_limite ->
     subclasse (exc_classe e) BankError = false /\
     subclasse (exc_classe e) NonCountError = false).
Proof.
  split; [|split; [|split]].
  - intros. now apply so_levanta_deposito.
  - intros. apply so_levanta_transferencia; [intros e; now left | now right].
  - intros. apply so_levanta_saque;
      [intros e; now left | right; now left | right; now right].
  - intros e [[H | [H | H]] | [-> | ->]];
      try (rewrite H; split; reflexivity); split; reflexivity.
Qed.

(** *** All or nothing *)

Lemma existe_apos_grava (m : Mundo) (r r' : ref) (c : Conta) e :
  is_Some (objs_contas m !! r') ->
  is_Some (objs_contas (grava r c e m) !! r').
Proof.
  intros H. destruct (decide (r = r')) as [<- | Hne].
  - rewrite grava_lookup. now eexists.
  - now rewrite grava_lookup_ne.
Qed.

(** The bookkeeping that follows a successful debit in [transferencia]
    cannot fail when both accounts exist. *)
Lemma transferencia_registro_total (m : Mundo) (r1 r2 : ref) (v : Q)
    (op1 op2 : Operacao) :
  is_Some (objs_contas m !! r1) ->
  is_Some (objs_contas m !! r2) ->
  exists m',
    (creditar r2 v ;;; operacoes_append r1 op1 ;;; operacoes_append r2 op2) m
    = (m', Retorna tt).
Proof.
  intros H1 [c2 H2].
  rewrite bind_eq, (creditar_ok m r2 c2 v H2).
  set (m1 := grava r2 _ _ m).
  destruct (existe_apos_grava m r2 r1 (com_saldo c2 (saldo c2 + v))
              (AtribuiSaldo r2 (saldo c2 + v)) H1) as [d1 Hd1].
  fold m1 in Hd1.
  unfold operacoes_append.
  rewrite bind_eq, (escrever_conta_ok m1 r1 d1 _ _ Hd1).
  set (m2 := grava r1 _ _ m1).
  assert (Hd2 : is_Some (objs_contas m2 !! r2)).
  { apply existe_apos_grava. unfold m1. rewrite grava_lookup. now eexists. }
  destruct Hd2 as [d2 Hd2].
  rewrite (escrever_conta_ok m2 r2 d2 _ _ Hd2).
  now eexists.
Qed.

(** X7. [transferencia] and [deposito] are all or nothing on existing
    accounts: when either raises, for whatever reason, the store is
    exactly the one the call started from.  ([saque] is not: C9.) *)
Theorem transferencia_e_deposito_tudo_ou_nada
    (m m' : Mundo) (b : Banco) (r1 r2 : ref) (v : Q)
    (agora1 agora2 : datetime) (e : Excecao) :
  is_Some (objs_contas m !! r1) ->
  is_Some (objs_contas m !! r2) ->
  (transferencia b r1 r2 v agora1 agora2 m = (m', Levanta e) -> m' = m) /\
  (deposito b r1 v agora1 m = (m', Levanta e) -> m' = m).
Proof.
  intros [c1 H1] [c2 H2]. split.
  - unfold transferencia. rewrite bind_eq.
    cbv beta iota delta [conta_in].
    destruct (list_contains _ (contas b) r1) as [[ | ] | e1];
      cbv beta iota delta [negb];
      [ | rewrite (raise_NonCountError_numero_ok m r1 c1 H1); congruence
        | congruence ].
    rewrite bind_eq.
    destruct (list_contains _ (contas b) r2) as [[ | ] | e2];
      cbv beta iota delta [negb];
      [ | rewrite (raise_NonCountError_numero_ok m r2 c2 H2); congruence
        | congruence ].
    rewrite bind_eq.
    destruct (debitar_casos m r1 c1 v H1)
      as [(_ & _ & Hd) | [(_ & Hd) | (o & _ & _ & _ & Hd)]]; rewrite Hd.
    + cbv beta iota delta [raise]. congruence.
    + match goal with
      | |- context [?prog (grava r1 ?c ?ef m)] =>
          destruct (transferencia_registro_total (grava r1 c ef m) r1 r2 v
                      (mkOperacao (TipoStr "Transferencia - Debito") v agora1)
                      (mkOperacao (TipoStr "Transferencia - Credito") v agora2))
            as [mf Hf];
          [ rewrite grava_lookup; now eexists
          | apply existe_apos_grava; exists c2; exact H2 | ]
      end.
      rewrite Hf. discriminate.
    + match goal with
      | |- context [?prog (grava r1 ?c ?ef ?m0)] =>
          destruct (transferencia_registro_total (grava r1 c ef m0) r1 r2 v
                      (mkOperacao (TipoStr "Transferencia - Debito") v agora1)
                      (mkOperacao (TipoStr "Transferencia - Credito") v agora2))
            as [mf Hf];
          [ rewrite grava_lookup; now eexists
          | apply existe_apos_grava, existe_apos_grava; exists c2; exact H2 | ]
      end.
      rewrite Hf. discriminate.
  - unfold deposito. rewrite bind_eq.
    cbv beta iota delta [conta_in].
    destruct (list_contains _ (contas b) r1) as [[ | ] | e1];
      cbv beta iota delta [negb];
      [ | rewrite (raise_NonCountError_numero_ok m r1 c1 H1); congruence
        | congruence ].
    unfold creditar. executa. discriminate.
Qed.

Lemma transferencia_e_deposito_tudo_ou_nada_witness :
  fst (transferencia banco_exemplo 2 1 500 7%Z 8%Z mundo_exemplo)
  = mundo_exemplo.
Proof.
  apply (proj1 (transferencia_e_deposito_tudo_ou_nada
                  mundo_exemplo _ banco_exemplo 2 1 500 7%Z 8%Z
                  (OperationError_new msg_saldo)
                  (ex_intro _ poupanca_exemplo eq_refl)
                  (ex_intro _ corrente_exemplo eq_refl))).
  vm_compute. reflexivity.
Defined.

(** *** Balances that are not negative *)

Lemma grava_saldos_nao_negativos (m : Mundo) (r : ref) (c : Conta) e :
  saldos_nao_negativos m -> 0 <= saldo c ->
  saldos_nao_negativos (grava r c e m).
Proof.
  intros Hm Hc r' c' Hl.
  destruct (decide (r = r')) as [<- | Hne].
  - rewrite grava_lookup in Hl. now inversion Hl; subst.
  - rewrite grava_lookup_ne in Hl by assumption. now apply (Hm r').
Qed.

Lemma saldos_escrever_conta (r : ref) (f : Conta -> Conta) e :
  (forall c, saldo (f c) = saldo c) ->
  preserva saldos_nao_negativos (escrever_conta r f e).
Proof.
  intros Hf m Hm. unfold escrever_conta.
  destruct (objs_contas m !! r) as [c | ] eqn:Hr; [|exact Hm].
  apply grava_saldos_nao_negativos; [exact Hm|].
  rewrite Hf. now apply (Hm r).
Qed.

Lemma saldos_creditar (r : ref) (v : Q) :
  0 <= v -> preserva saldos_nao_negativos (creditar r v).
Proof.
  intros Hv m Hm.
  destruct (objs_contas m !! r) as [c | ] eqn:Hr.
  - rewrite (creditar_ok m r c v Hr). cbn [fst].
    apply grava_saldos_nao_negativos; [exact Hm|].
    simpl. pose proof (Hm r c Hr). lra.
  - unfold creditar. rewrite bind_eq. unfold ler_conta. now rewrite Hr.
Qed.

Lemma saldos_debitar (r : ref) (v : Q) :
  preserva saldos_nao_negativos (debitar r v).
Proof.
  intros m Hm.
  destruct (objs_contas m !! r) as [c | ] eqn:Hr.
  - pose proof (Hm r c Hr) as Hs.
    destruct (debitar_casos m r c v Hr)
      as [(_ & _ & Hd) | [(Hle & Hd) | (o & Hk & _ & _ & Hd)]];
      rewrite Hd; cbn [fst]; [exact Hm | |].
    + apply grava_saldos_nao_negativos; [exact Hm | simpl; lra].
    + apply grava_saldos_nao_negativos; [|simpl; lra].
      now apply grava_saldos_nao_negativos.
  - unfold debitar. rewrite bind_eq. unfold ler_conta. now rewrite Hr.
Qed.

Lemma saldos_limite_saque (r : ref) (hoje : date) :
  preserva saldos_nao_negativos (limite_saque r hoje).
Proof.
  apply preserva_bind; [|intros _].
  - apply preserva_bind; [apply preserva_ler_conta|].
    intros c. destruct (negb _); [|apply preserva_ret].
    apply preserva_bind; [now apply saldos_escrever_conta|].
    intros _. now apply saldos_escrever_conta.
  - apply preserva_bind; [apply preserva_ler_conta|].
    intros c. destruct (isinstance_Poupanca c); apply preserva_ret.
Qed.

Lemma saldos_raise_NonCountError_numero {A} (r : ref) :
  preserva saldos_nao_negativos (@raise_NonCountError_numero A r).
Proof.
  apply preserva_bind; [apply preserva_ler_conta|].
  intros c. apply preserva_bind; [|intros e; apply preserva_raise].
  apply preserva_bind; [apply preserva_raise|].
  intros n. apply preserva_ret.
Qed.

(** X8. With amounts that are not negative no operation of [Banco]
    drives a balance below zero: if no account of the store has a
    negative balance before [deposito], [saque] or [transferencia],
    none has one after, whether the call returns or raises. *)
Theorem operacoes_mantem_saldos_nao_negativos
    (m : Mundo) (b : Banco) (r1 r2 : ref) (v : Q) (hoje : date)
    (agora1 agora2 : datetime) :
  saldos_nao_negativos m ->
  0 <= v ->
  saldos_nao_negativos (fst (deposito b r1 v agora1 m)) /\
  saldos_nao_negativos (fst (saque b r1 v hoje agora1 m)) /\
  saldos_nao_negativos (fst (transferencia b r1 r2 v agora1 agora2 m)).
Proof.
  intros Hm Hv. split; [|split]; revert m Hm;
    match goal with |- forall m, _ -> ?P (fst (?c m)) =>
      change (preserva P c) end.
  - apply preserva_bind; [apply preserva_conta_in|].
    intros p. destruct (negb p); [apply saldos_raise_NonCountError_numero|].
    apply preserva_bind; [now apply saldos_escrever_conta|].
    intros _. now apply saldos_creditar.
  - apply preserva_bind; [apply preserva_conta_in|].
    intros p. destruct (negb p); [apply saldos_raise_NonCountError_numero|].
    apply preserva_bind; [apply saldos_limite_saque|].
    intros perm. destruct (negb perm); [apply preserva_raise|].
    apply preserva_bind; [apply saldos_debitar|].
    intros [ | ]; [|apply preserva_raise].
    apply preserva_bind; [now apply saldos_escrever_conta|].
    intros _. apply preserva_bind; [apply preserva_ler_conta|].
    intros c. now apply saldos_escrever_conta.
  - apply preserva_bind; [apply preserva_conta_in|].
    intros p1. destruct (negb p1); [apply saldos_raise_NonCountError_numero|].
    apply preserva_bind; [apply preserva_conta_in|].
    intros p2. destruct (negb p2); [apply saldos_raise_NonCountError_numero|].
    apply preserva_bind; [apply saldos_debitar|].
    intros [ | ]; [|apply preserva_raise].
    apply preserva_bind; [now apply saldos_creditar|].
    intros _. apply preserva_bind; [now apply saldos_escrever_conta|].
    intros _. now apply saldos_escrever_conta.
Qed.

Lemma mundo_exemplo_contas :
  objs_contas mundo_exemplo
  = <[1%nat := corrente_exemplo]>
      (<[2%nat := poupanca_exemplo]>
         (<[3%nat := mkConta 0 30 "003" 0 20 [] 100 (ClassePoupanca 0.001)]> ∅)).
Proof. vm_compute. reflexivity. Qed.

Lemma mundo_exemplo_saldos : saldos_nao_negativos mundo_exemplo.
Proof.
  intros r c. rewrite mundo_exemplo_contas.
  rewrite !lookup_insert, lookup_empty.
  repeat case_decide; intros Hl; inversion Hl; subst; simpl;
    vm_compute; discriminate.
Qed.

Lemma operacoes_mantem_saldos_nao_negativos_witness :
  saldos_nao_negativos (fst (deposito banco_exemplo 2 10 7%Z mundo_exemplo)) /\
  saldos_nao_negativos (fst (saque banco_exemplo 2 10 100%Z 7%Z mundo_exemplo)) /\
  saldos_nao_negativos
    (fst (transferencia banco_exemplo 2 1 10 7%Z 8%Z mundo_exemplo)).
Proof.
  apply (operacoes_mantem_saldos_nao_negativos mundo_exemplo banco_exemplo
           2 1 10 100%Z 7%Z 8%Z);
    [exact mundo_exemplo_saldos | vm_compute; discriminate].
Defined.

(** *** The outcomes of a withdrawal *)


Lemma apos_reset_ultima (c : Conta) (hoje : date) :
  ultima_atualizacao (apos_reset c hoje) = hoje.
Proof.
  unfold apos_reset.
  destruct (Z.eqb_spec hoje (ultima_atualizacao c)) as [-> | Hne]; reflexivity.
Qed.








Example corrente_acima_do_limite_diario :
  exists c,
    objs_contas mundo_muitos_saques !! 1%nat = Some c /\
    saques_diarios c = 25%Z /\ limite_saques_diarios c = 20%Z /\
    snd (saque banco_exemplo 1 1 100%Z 7%Z mundo_muitos_saques) = Retorna tt.
Proof.
  eexists. split; [reflexivity|].
  split; [reflexivity|]. split; [reflexivity|].
  vm_compute. reflexivity.
Qed.

(** X12. A [Poupanca] never records more withdrawals than its daily
    limit: if the count is within a non-negative limit before
    [Banco.saque], it is within it after, whether the call pays,
    refuses for lack of funds or refuses for the limit, on the same day
    or on another. *)
Theorem saque_poupanca_respeita_limite
    (m : Mundo) (b : Banco) (r : ref) (c : Conta) (v : Q)
    (hoje : date) (agora : datetime) :
  registrada m b r ->
  objs_contas m !! r = Some c ->
  isinstance_Poupanca c = true ->
  (0 <= limite_saques_diarios c)%Z ->
  (saques_diarios c <= limite_saques_diarios c)%Z ->
  exists c',
    objs_contas (fst (saque b r v hoje agora m)) !! r = Some c' /\
    limite_saques_diarios c' = limite_saques_diarios c /\
    (saques_diarios c' <= limite_saques_diarios c')%Z.
Proof.
  intros Hreg Hr Hp Hl0 Hle.
  pose proof (mundo_apos_reset_lookup m r c hoje Hr) as Hr0.
  assert (Hc0 : (saques_diarios (apos_reset c hoje)
                 <= limite_saques_diarios c)%Z).
  { unfold apos_reset. destruct (negb _); simpl; lia. }
  assert (Hlim0 : limite_saques_diarios (apos_reset c hoje)
                  = limite_saques_diarios c)
    by apply apos_reset_campos.
  rewrite (saque_passos m b r c v hoje agora Hreg Hr), Hp.
  destruct (Z.ltb_spec (saques_diarios (apos_reset c hoje))
              (limite_saques_diarios c)) as [Hlt | Hge].
  - destruct (debitar_casos _ r _ v Hr0)
      as [(_ & _ & Hd) | [(_ & Hd) | (o & _ & _ & _ & Hd)]]; rewrite Hd.
    + exists (apos_reset c hoje). cbn [fst].
      split; [exact Hr0|]. split; [exact Hlim0 | lia].
    + rewrite (saque_registro _ r _ v agora (grava_lookup _ _ _ _)).
      cbn [fst]. eexists. split; [apply grava_lookup|].
      cbn. split; [exact Hlim0 | lia].
    + rewrite (saque_registro _ r _ v agora (grava_lookup _ _ _ _)).
      cbn [fst]. eexists. split; [apply grava_lookup|].
      cbn. split; [exact Hlim0 | lia].
  - exists (apos_reset c hoje). cbn [fst].
    split; [exact Hr0|]. split; [exact Hlim0 | lia].
Qed.

Lemma saque_poupanca_respeita_limite_witness :
  exists c',
    objs_contas (fst (saque banco_exemplo 2 1 100%Z 7%Z mundo_limite))
      !! 2%nat = Some c' /\
    limite_saques_diarios c' = limite_saques_diarios poupanca_no_limite /\
    (saques_diarios c' <= limite_saques_diarios c')%Z.
Proof.
  apply (saque_poupanca_respeita_limite mundo_limite banco_exemplo 2
           poupanca_no_limite 1 100%Z 7%Z);
    [vm_compute; reflexivity | reflexivity | reflexivity
    | vm_compute; discriminate | vm_compute; discriminate].
Defined.

(** *** Transfers move money, on every debit path *)





(** *** Opening accounts *)




(** *** Interest *)



(** *** A client's own list of accounts *)

Lemma campos_conta_eqb_numero (a b : Conta) :
  numero a <> numero b -> campos_conta_eqb a b = false.
Proof.
  intros Hn. unfold campos_conta_eqb.
  apply String.eqb_neq in Hn. rewrite Hn.
  now destruct (Qeq_bool (saldo a) (saldo b)).
Qed.

Lemma procurar_numero_ausente (m : Mundo) (l : list ref) (n : string) :
  (forall r, In r l ->
     exists c, objs_contas m !! r = Some c /\ numero c <> n) ->
  procurar_numero m l n = Retorna None.
Proof.
  induction l as [ | x l IH]; intros H; [reflexivity|].
  cbn [procurar_numero].
  destruct (H x (or_introl eq_refl)) as (cx & Hx & Hn).
  rewrite Hx. apply String.eqb_neq in Hn. rewrite Hn.
  apply IH. intros r Hr. apply H. now right.
Qed.

Lemma procurar_numero_primeira (m : Mundo) (pre pos : list ref) (conta : ref)
    (c : Conta) (n : string) :
  (forall r, In r pre ->
     exists cr, objs_contas m !! r = Some cr /\ numero cr <> n) ->
  objs_contas m !! conta = Some c ->
  numero c = n ->
  procurar_numero m (pre ++ conta :: pos) n = Retorna (Some conta).
Proof.
  intros Hpre Hc Hn.
  induction pre as [ | x pre IH]; cbn [procurar_numero app].
  - rewrite Hc. apply String.eqb_eq in Hn. now rewrite Hn.
  - destruct (Hpre x (or_introl eq_refl)) as (cx & Hx & Hnx).
    rewrite Hx. apply String.eqb_neq in Hnx. rewrite Hnx.
    apply IH. intros r Hr. apply Hpre. now right.
Qed.

Lemma list_remove_primeira (k : nat) (m : Mundo) (pre pos : list ref)
    (conta : ref) (c : Conta) :
  (forall r, In r pre ->
     exists cr, objs_contas m !! r = Some cr /\ numero cr <> numero c /\
                titular cr = titular c) ->
  objs_contas m !! conta = Some c ->
  list_remove (Conta_eq (S k) m) (pre ++ conta :: pos) conta
  = Retorna (Some (pre ++ pos)%list).
Proof.
  intros Hpre Hc.
  induction pre as [ | x pre IH]; cbn [list_remove app].
  - now rewrite Nat.eqb_refl.
  - destruct (Hpre x (or_introl eq_refl)) as (cx & Hx & Hnx & Htx).
    destruct (Nat.eqb_spec x conta) as [-> | Hne]; [congruence|].
    assert (E : Conta_eq (S k) m x conta = Retorna false).
    { cbn [Conta_eq]. rewrite Hx, Hc.
      destruct (negb (mesma_classe (classe cx) (classe c))); [reflexivity|].
      rewrite Htx, Nat.eqb_refl.
      now rewrite (campos_conta_eqb_numero cx c Hnx). }
    rewrite E, IH; [reflexivity|]. intros r Hr. apply Hpre. now right.
Qed.

(** X16. [remover_conta] on a client none of whose accounts has the
    given number returns [False] and changes nothing. *)
Theorem remover_conta_numero_ausente
    (m : Mundo) (self : ref) (cli : Cliente) (n : string) :
  objs_clientes m !! self = Some cli ->
  (forall r, In r (cliente_contas cli) ->
     exists c, objs_contas m !! r = Some c /\ numero c <> n) ->
  remover_conta self n m = (m, Retorna (Some false)).
Proof.
  intros Hs Hl. unfold remover_conta.
  rewrite bind_eq. unfold ler_cliente. rewrite Hs.
  rewrite bind_eq, (procurar_numero_ausente m _ n Hl). reflexivity.
Qed.

Lemma remover_conta_numero_ausente_witness :
  remover_conta 0 "999" mundo_exemplo = (mundo_exemplo, Retorna (Some false)).
Proof.
  apply (remover_conta_numero_ausente mundo_exemplo 0
           (mkCliente "Ana" "123" [] [1%nat; 2%nat]) "999");
    [reflexivity|].
  intros r [<- | [<- | []]]; eexists; (split; [reflexivity | discriminate]).
Defined.

(** X17. [remover_conta] removes the first account of the client's list
    that has the given number, and only that one: when the accounts
    before it in the list belong to the same titular, the call returns
    [True], the client's list loses exactly that entry, no account
    object changes (the bank's registry is not involved at all), and
    [list.remove] never fails to find the account. *)
Theorem remover_conta_primeira_do_numero
    (m : Mundo) (self : ref) (cli : Cliente) (pre pos : list ref)
    (conta : ref) (c : Conta) :
  objs_clientes m !! self = Some cli ->
  cliente_contas cli = (pre ++ conta :: pos)%list ->
  objs_contas m !! conta = Some c ->
  (forall r, In r pre ->
     exists cr, objs_contas m !! r = Some cr /\ numero cr <> numero c /\
                titular cr = titular c) ->
  limite_recursao m <> 0%nat ->
  exists m',
    remover_conta self (numero c) m = (m', Retorna (Some true)) /\
    objs_clientes m' =
      <[self := com_cliente_contas cli (pre ++ pos)]> (objs_clientes m) /\
    objs_contas m' = objs_contas m.
Proof.
  intros Hs Hl Hc Hpre Hfuel.
  destruct (limite_recursao m) as [ | k] eqn:Hk; [congruence|].
  eexists. split.
  - unfold remover_conta.
    rewrite bind_eq. unfold ler_cliente. rewrite Hs.
    rewrite bind_eq, Hl.
    rewrite (procurar_numero_primeira m pre pos conta c (numero c));
      [ | intros r Hr; destruct (Hpre r Hr) as (cr & H1 & H2 & _); eauto
        | exact Hc | reflexivity ].
    rewrite bind_eq. cbv beta. rewrite Hk.
    rewrite (list_remove_primeira k m pre pos conta c Hpre Hc).
    rewrite bind_eq. unfold escrever_cliente. rewrite Hs. reflexivity.
  - split; reflexivity.
Qed.

Lemma remover_conta_primeira_do_numero_witness :
  exists m',
    remover_conta 0 (numero poupanca_exemplo) mundo_exemplo
    = (m', Retorna (Some true)) /\
    objs_clientes m' =
      <[0%nat := com_cliente_contas (mkCliente "Ana" "123" [] [1%nat; 2%nat])
                   ([1%nat] ++ [])]>
        (objs_clientes mundo_exemplo) /\
    objs_contas m' = objs_contas mundo_exemplo.
Proof.
  apply (remover_conta_primeira_do_numero mundo_exemplo 0
           (mkCliente "Ana" "123" [] [1%nat; 2%nat]) [1%nat] [] 2
           poupanca_exemplo);
    [reflexivity | reflexivity | reflexivity | | discriminate].
  intros r [<- | []]. exists corrente_exemplo.
  split; [reflexivity|]. split; [discriminate | reflexivity].
Defined.

(** X18. Adding an account to a client and removing it again by its
    number gives back the store the client started from: when no
    account already in the list has that number, and those accounts
    belong to the same titular, [adicionar_conta] followed by
    [remover_conta] returns [True] and leaves every object as it
    was. *)
Theorem adicionar_remover_conta_devolve
    (m : Mundo) (self : ref) (cli : Cliente) (conta : ref) (c : Conta) :
  objs_clientes m !! self = Some cli ->
  objs_contas m !! conta = Some c ->
  (forall r, In r (cliente_contas cli) ->
     exists cr, objs_contas m !! r = Some cr /\ numero cr <> numero c /\
                titular cr = titular c) ->
  limite_recursao m <> 0%nat ->
  (adicionar_conta self conta ;;; remover_conta self (numero c)) m
  = (m, Retorna (Some true)).
Proof.
  intros Hs Hc Hl Hfuel.
  destruct (limite_recursao m) as [ | k] eqn:Hk; [congruence|].
  set (cli1 := com_cliente_contas cli (cliente_contas cli ++ [conta])).
  set (m1 := mkMundo (<[self := cli1]> (objs_clientes m)) (objs_contas m)
               (proximo m) (limite_recursao m) (rastro m)).
  assert (Ha : adicionar_conta self conta m = (m1, Retorna tt)).
  { unfold adicionar_conta, escrever_cliente. now rewrite Hs. }
  assert (Hs1 : objs_clientes m1 !! self = Some cli1)
    by apply lookup_insert_eq.
  assert (Hp : procurar_numero m1 (cliente_contas cli ++ [conta]) (numero c)
               = Retorna (Some conta)).
  { apply (procurar_numero_primeira m1 (cliente_contas cli) [] conta c);
      [ | exact Hc | reflexivity ].
    intros r Hr. destruct (Hl r Hr) as (cr & H1 & H2 & _). eauto. }
  assert (Hrm : list_remove (Conta_eq (limite_recursao m1) m1)
                  (cliente_contas cli ++ [conta]) conta
                = Retorna (Some (cliente_contas cli ++ [])%list)).
  { cbn [limite_recursao m1]. rewrite Hk.
    apply (list_remove_primeira k m1 (cliente_contas cli) [] conta c Hl Hc). }
  rewrite bind_eq, Ha. unfold remover_conta.
  rewrite bind_eq. unfold ler_cliente. rewrite Hs1.
  rewrite bind_eq. cbv beta. cbn [cliente_contas cli1 com_cliente_contas].
  rewrite Hp.
  rewrite bind_eq. cbv beta. rewrite Hrm.
  rewrite bind_eq. unfold escrever_cliente. rewrite Hs1.
  cbv beta iota delta [ret]. f_equal.
  destruct m as [cls cts px lr rs]. unfold m1, cli1. cbn in *. f_equal.
  rewrite insert_insert_eq, app_nil_r.
  apply insert_id. rewrite Hs. now destruct cli.
Qed.

Lemma adicionar_remover_conta_devolve_witness :
  (adicionar_conta 0 3 ;;; remover_conta 0 "003") mundo_exemplo
  = (mundo_exemplo, Retorna (Some true)).
Proof.
  apply (adicionar_remover_conta_devolve mundo_exemplo 0
           (mkCliente "Ana" "123" [] [1%nat; 2%nat]) 3
           (mkConta 0 30 "003" 0 20 [] 100 (ClassePoupanca 0.001)));
    [reflexivity | reflexivity | | discriminate].
  intros r [<- | [<- | []]]; eexists;
    (split; [reflexivity|]; split; [discriminate | reflexivity]).
Defined.

(** *** The daily reset *)

(** X19. The daily-reset check settles the day: after one
    [limite_saque] on day [hoje], the account is stamped with [hoje],
    and a second [limite_saque] on the same day changes nothing and
    gives the same answer. *)
Theorem limite_saque_duas_vezes
    (m : Mundo) (r : ref) (c : Conta) (hoje : date) :
  objs_contas m !! r = Some c ->
  exists m1 c1 resposta,
    limite_saque r hoje m = (m1, Retorna resposta) /\
    objs_contas m1 !! r = Some c1 /\
    ultima_atualizacao c1 = hoje /\
    limite_saque r hoje m1 = (m1, Retorna resposta).
Proof.
  intros Hr.
  pose proof (mundo_apos_reset_lookup m r c hoje Hr) as Hr0.
  destruct (apos_reset_campos c hoje) as (_ & _ & Hk & Hlim & _).
  eexists. exists (apos_reset c hoje). eexists.
  split; [apply (limite_saque_ok m r c hoje Hr)|].
  split; [exact Hr0|].
  split; [apply apos_reset_ultima|].
  rewrite (limite_saque_ok _ r _ hoje Hr0).
  assert (E : apos_reset (apos_reset c hoje) hoje = apos_reset c hoje).
  { rewrite <- (apos_reset_ultima c hoje) at 2. apply apos_reset_mesmo_dia. }
  assert (Em : mundo_apos_reset r (apos_reset c hoje) hoje
                 (mundo_apos_reset r c hoje m)
               = mundo_apos_reset r c hoje m).
  { rewrite <- (apos_reset_ultima c hoje) at 2.
    apply mundo_apos_reset_mesmo_dia. }
  rewrite E, Em, Hlim. unfold isinstance_Poupanca. now rewrite Hk.
Qed.

Lemma limite_saque_duas_vezes_witness :
  exists m1 c1 resposta,
    limite_saque 2 101%Z mundo_limite = (m1, Retorna resposta) /\
    objs_contas m1 !! 2%nat = Some c1 /\
    ultima_atualizacao c1 = 101%Z /\
    limite_saque 2 101%Z m1 = (m1, Retorna resposta).
Proof.
  apply (limite_saque_duas_vezes mundo_limite 2 poupanca_no_limite 101%Z).
  reflexivity.
Defined.
